(** * Model Context Protocol server: envelope, dispatcher, process supervisor
      and terminal multiplexer

    A shallow embedding of [src/MCP/src/main.py], [src/MCP/src/terminal_repl.py]
    and of the [clojureRepl] handler of [src/MCP/src/clojure_extension.py].

    Conventions of the embedding.
    - A Python [str] is a Rocq [string] holding the UTF-8 encoding of the
      text; [bytes] is [list byte].
    - A value produced by [json.loads] is a [json]; non-integer numbers are
      outside the model.
    - A handler is a computation in the monad [M]: it threads the server
      state, logs what it sends on a channel, what it writes to a child's
      input stream and what it prints on stderr, and ends by returning,
      by raising, or by never resuming ([Hang]).
    - Whatever the operating system decides (does the spawn succeed, what
      did the pipe deliver, does a wait ever return) is read from a [World]
      record supplied with each call. *)

From Stdlib Require Import ZArith String Ascii List Bool Lia DecimalString.
From Stdlib.Strings Require Import Byte.
From stdpp Require Import base gmap strings list.

Set Warnings "-register-all".

Local Open Scope string_scope.
Local Open Scope Z_scope.
Local Open Scope list_scope.

(* ===================================================================== *)
(** * Python values *)
(* ===================================================================== *)

Module Py.

(** The result of [json.loads]: [None], [bool], [int], [str], [list],
    [dict]. A dict keeps its items in insertion order. *)
Inductive json : Type :=
| JNull
| JBool (b : bool)
| JInt (z : Z)
| JStr (s : string)
| JArr (l : list json)
| JObj (kvs : list (string * json)).

(** Insertion-ordered dictionaries with [str] keys. *)
Definition dict (V : Type) : Type := list (string * V).

Fixpoint dict_get {V} (k : string) (d : dict V) : option V :=
  match d with
  | [] => None
  | (k', v) :: d' => if String.eqb k k' then Some v else dict_get k d'
  end.

Definition dict_keys {V} (d : dict V) : list string := map fst d.

(** [d[k] = v]: an existing key keeps its place, a new key goes last. *)
Fixpoint dict_set {V} (k : string) (v : V) (d : dict V) : dict V :=
  match d with
  | [] => [(k, v)]
  | (k', v') :: d' =>
      if String.eqb k k' then (k, v) :: d' else (k', v') :: dict_set k v d'
  end.

(** [del d[k]] on a key that is present. *)
Fixpoint dict_del {V} (k : string) (d : dict V) : dict V :=
  match d with
  | [] => []
  | (k', v') :: d' =>
      if String.eqb k k' then d' else (k', v') :: dict_del k d'
  end.

(** [d.get(k, default)]. *)
Definition get (d : dict json) (k : string) (default : json) : json :=
  match dict_get k d with
  | Some v => v
  | None => default
  end.

(** Truth value of a Python object, as [if x:] and [not x] test it. *)
Definition truthy (v : json) : bool :=
  match v with
  | JNull => false
  | JBool b => b
  | JInt z => negb (z =? 0)
  | JStr s => negb (String.eqb s "")
  | JArr l => match l with [] => false | _ => true end
  | JObj kvs => match kvs with [] => false | _ => true end
  end.

(** Dictionary keys. [True == 1] and [False == 0] hash alike, so booleans
    share the integer keys. *)
Inductive pykey : Type :=
| KNone
| KInt (z : Z)
| KStr (s : string).

(** [hash(v)]: lists and dicts are unhashable ([None] stands for the
    [TypeError]). *)
Definition hash (v : json) : option pykey :=
  match v with
  | JNull => Some KNone
  | JBool b => Some (KInt (if b then 1 else 0))
  | JInt z => Some (KInt z)
  | JStr s => Some (KStr s)
  | JArr _ => None
  | JObj _ => None
  end.

#[global] Instance pykey_eq_dec : EqDecision pykey.
Proof. solve_decision. Defined.

Definition pykey_to_sum (k : pykey) : option (Z + string) :=
  match k with
  | KNone => None
  | KInt z => Some (inl z)
  | KStr s => Some (inr s)
  end.

Definition pykey_of_sum (x : option (Z + string)) : pykey :=
  match x with
  | None => KNone
  | Some (inl z) => KInt z
  | Some (inr s) => KStr s
  end.

#[global] Instance pykey_countable : Countable pykey.
Proof.
  refine (inj_countable' pykey_to_sum pykey_of_sum _).
  intros []; reflexivity.
Defined.

(** [str(n)] for an [int]. *)
Definition str_of_Z (z : Z) : string := NilZero.string_of_int (Z.to_int z).

(** Number of code points of a text: the bytes that are not continuation
    bytes [10xxxxxx]. *)
Definition is_continuation (a : ascii) : bool :=
  let n := N_of_ascii a in ((128 <=? n) && (n <=? 191))%N.

Fixpoint len (s : string) : nat :=
  match s with
  | EmptyString => O
  | String a s' => if is_continuation a then len s' else S (len s')
  end.

(** The exceptions the modelled code can meet. *)
Inductive PyExn : Type :=
| TypeError
| KeyError
| ValueError
| AttributeError
| UnicodeDecodeError
| ValidationError
| OSError.   (** whatever an operating-system or library call raised *)

(** [env.update(v)] on a dict [env]: [v] is a mapping, or an iterable of
    two-element iterables whose first element is hashable. [None] means
    the call returns. *)
Definition pair_error (v : json) : option PyExn :=
  match v with
  | JArr [k; _] => match hash k with Some _ => None | None => Some TypeError end
  | JArr _ => Some ValueError
  | JStr s => if Nat.eqb (len s) 2 then None else Some ValueError
  | JObj [_; _] => None
  | JObj _ => Some ValueError
  | _ => Some TypeError
  end.

Fixpoint first_error (l : list json) : option PyExn :=
  match l with
  | [] => None
  | v :: l' => match pair_error v with
               | Some e => Some e
               | None => first_error l'
               end
  end.

Definition update_error (v : json) : option PyExn :=
  match v with
  | JObj _ => None
  | JArr l => first_error l
  | JStr s => if String.eqb s "" then None else Some ValueError
  | _ => Some TypeError
  end.

(** [a == b] on values of [json.loads]; dicts compare without order. *)
Fixpoint py_eq (a b : json) {struct a} : bool :=
  match a, b with
  | JNull, JNull => true
  | JBool x, JBool y => Bool.eqb x y
  | JBool x, JInt z => z =? (if x then 1 else 0)
  | JInt z, JBool x => z =? (if x then 1 else 0)
  | JInt x, JInt y => x =? y
  | JStr x, JStr y => String.eqb x y
  | JArr x, JArr y =>
      (fix go (l1 l2 : list json) : bool :=
         match l1, l2 with
         | [], [] => true
         | u :: l1', v :: l2' => py_eq u v && go l1' l2'
         | _, _ => false
         end) x y
  | JObj x, JObj y =>
      Nat.eqb (length x) (length y)
      && (fix all (l : list (string * json)) : bool :=
            match l with
            | [] => true
            | (k, u) :: l' =>
                match dict_get k y with
                | Some v => py_eq u v && all l'
                | None => false
                end
            end) x
  | _, _ => false
  end.

(** [s.lower()] on the letters A-Z. No other character has a lower-case
    form that is one of the ASCII letters the handlers compare with. *)
Definition lower_ascii (a : ascii) : ascii :=
  let n := N_of_ascii a in
  if ((65 <=? n) && (n <=? 90))%N then ascii_of_N (n + 32) else a.

Fixpoint lower (s : string) : string :=
  match s with
  | EmptyString => EmptyString
  | String a s' => String (lower_ascii a) (lower s')
  end.

(** The line feed that ends a line. *)
Definition LF : string := String (ascii_of_nat 10) EmptyString.

(** ** [bytes.decode()]: strict UTF-8 *)

Definition in_range (lo hi : N) (b : byte) : bool :=
  let n := Byte.to_N b in ((lo <=? n) && (n <=? hi))%N.

Definition cont : byte -> bool := in_range 128 191.

(** Well-formed UTF-8 byte sequences (no overlong forms, no surrogates,
    nothing above U+10FFFF). *)
Fixpoint utf8_valid (bs : list byte) : bool :=
  match bs with
  | [] => true
  | b0 :: r0 =>
      if in_range 0 127 b0 then utf8_valid r0
      else
        match r0 with
        | [] => false
        | b1 :: r1 =>
            if in_range 194 223 b0 then cont b1 && utf8_valid r1
            else
              match r1 with
              | [] => false
              | b2 :: r2 =>
                  if in_range 224 224 b0
                  then in_range 160 191 b1 && cont b2 && utf8_valid r2
                  else if in_range 237 237 b0
                  then in_range 128 159 b1 && cont b2 && utf8_valid r2
                  else if in_range 225 239 b0
                  then cont b1 && cont b2 && utf8_valid r2
                  else
                    match r2 with
                    | [] => false
                    | b3 :: r3 =>
                        if in_range 240 240 b0
                        then in_range 144 191 b1 && cont b2 && cont b3
                             && utf8_valid r3
                        else if in_range 241 243 b0
                        then cont b1 && cont b2 && cont b3 && utf8_valid r3
                        else if in_range 244 244 b0
                        then in_range 128 143 b1 && cont b2 && cont b3
                             && utf8_valid r3
                        else false
                    end
              end
        end
  end.

(** [bs.decode()]; [None] stands for [UnicodeDecodeError]. *)
Definition decode (bs : list byte) : option string :=
  if utf8_valid bs then Some (string_of_list_byte bs) else None.

(** [s.encode()]. *)
Definition encode (s : string) : list byte := list_byte_of_string s.

(** ** [str.rstrip()] *)

(** Drops the white space at the head of a reversed byte sequence. The
    white-space characters are U+0009-000D, U+001C-0020, U+0085, U+00A0,
    U+1680, U+2000-200A, U+2028, U+2029, U+202F, U+205F and U+3000. *)
Fixpoint lstrip_rev (bs : list byte) : list byte :=
  match bs with
  | [] => []
  | b0 :: r0 =>
      if in_range 9 13 b0 || in_range 28 32 b0 then lstrip_rev r0
      else
        match r0 with
        | [] => bs
        | b1 :: r1 =>
            if in_range 194 194 b1 && (in_range 133 133 b0 || in_range 160 160 b0)
            then lstrip_rev r1
            else
              match r1 with
              | [] => bs
              | b2 :: r2 =>
                  if (in_range 225 225 b2 && in_range 154 154 b1
                      && in_range 128 128 b0)
                     || (in_range 226 226 b2 && in_range 128 128 b1
                         && (in_range 128 138 b0 || in_range 168 169 b0
                             || in_range 175 175 b0))
                     || (in_range 226 226 b2 && in_range 129 129 b1
                         && in_range 159 159 b0)
                     || (in_range 227 227 b2 && in_range 128 128 b1
                         && in_range 128 128 b0)
                  then lstrip_rev r2
                  else bs
              end
        end
  end.

Definition rstrip (s : string) : string :=
  string_of_list_byte (rev (lstrip_rev (rev (list_byte_of_string s)))).

(** ** Slices *)

(** [l[i:]] *)
Definition slice_from {A} (i : Z) (l : list A) : list A :=
  let n := Z.of_nat (length l) in
  drop (Z.to_nat (if i <? 0 then Z.max 0 (n + i) else Z.min i n)) l.

(** [l[:j]] *)
Definition slice_to {A} (j : Z) (l : list A) : list A :=
  let n := Z.of_nat (length l) in
  take (Z.to_nat (if j <? 0 then Z.max 0 (n + j) else Z.min j n)) l.

(** The [int] behind a value that unary minus and slicing accept. *)
Definition as_index (v : json) : option Z :=
  match v with
  | JInt z => Some z
  | JBool b => Some (if b then 1 else 0)
  | _ => None
  end.

End Py.
Import Py.

(* ===================================================================== *)
(** * The message envelope ([class Message], [class MessageType]) *)
(* ===================================================================== *)

Inductive MessageType : Type := REQUEST | RESPONSE | ERROR.

Definition MessageType_of_string (s : string) : option MessageType :=
  if String.eqb s "request" then Some REQUEST
  else if String.eqb s "response" then Some RESPONSE
  else if String.eqb s "error" then Some ERROR
  else None.

Module Message.
(** [result: Optional[Any] = None]: [JNull] is Python's [None]. *)
Record t : Type := make {
  type : MessageType;
  id : string;
  method : option string;
  params : option (dict json);
  result : json;
  error : option (dict json)
}.
End Message.

(** Field validators of the model class: [Optional[str]] and
    [Optional[Dict[str, Any]]]. The outer [None] is a validation error. *)
Definition optional_str (v : option json) : option (option string) :=
  match v with
  | None | Some JNull => Some None
  | Some (JStr s) => Some (Some s)
  | Some _ => None
  end.

Definition optional_dict (v : option json) : option (option (dict json)) :=
  match v with
  | None | Some JNull => Some None
  | Some (JObj kvs) => Some (Some kvs)
  | Some _ => None
  end.

(** The constructor call [Message] on the items of [message_data], line 424
    of main.py. [None] stands for the exception raised: a
    [TypeError] when [message_data] is not a mapping, a [ValidationError]
    when a required field is missing or a field has the wrong type. Keys
    the class does not declare are ignored. *)
Definition Message_validate (message_data : json) : option Message.t :=
  match message_data with
  | JObj kvs =>
      match dict_get "type" kvs, dict_get "id" kvs with
      | Some (JStr ty), Some (JStr i) =>
          match MessageType_of_string ty,
                optional_str (dict_get "method" kvs),
                optional_dict (dict_get "params" kvs),
                optional_dict (dict_get "error" kvs) with
          | Some ty', Some m, Some p, Some e =>
              Some (Message.make ty' i m p (get kvs "result" JNull) e)
          | _, _, _, _ => None
          end
      | _, _ => None
      end
  | _ => None
  end.

(* ===================================================================== *)
(** * Server state *)
(* ===================================================================== *)

(** An [asyncio.subprocess.Process] handle and a [WebSocket] connection,
    each known by a number. *)
Inductive Process : Type := Proc (pid : nat).
Definition WebSocket : Type := nat.

(** [class ConnectionManager] *)
Record ConnectionManager : Type := mkManager {
  active_connections : list WebSocket;
  running_processes : gmap pykey Process;
  process_output_buffers : gmap pykey (list string)
}.

(** One entry of [_active_terminals] in terminal_repl.py. [created_at] is
    the clock reading [time.time()]. *)
Module Session.
Record t : Type := make {
  process : Process;
  shell : json;
  cwd : json;
  name : json;
  output : list string;
  created_at : Z
}.
End Session.

(** The module-level globals: [manager] of main.py, [_active_terminals] and
    [_current_terminal_id] of terminal_repl.py. *)
Record Server : Type := mkServer {
  manager : ConnectionManager;
  _active_terminals : dict Session.t;
  _current_terminal_id : json
}.

Definition set_manager (f : ConnectionManager -> ConnectionManager) (s : Server) : Server :=
  mkServer (f (manager s)) (_active_terminals s) (_current_terminal_id s).

Definition set_connections (f : list WebSocket -> list WebSocket) (m : ConnectionManager) : ConnectionManager :=
  mkManager (f (active_connections m)) (running_processes m) (process_output_buffers m).

Definition set_running (f : gmap pykey Process -> gmap pykey Process) (m : ConnectionManager) : ConnectionManager :=
  mkManager (active_connections m) (f (running_processes m)) (process_output_buffers m).

Definition set_buffers (f : gmap pykey (list string) -> gmap pykey (list string)) (m : ConnectionManager) : ConnectionManager :=
  mkManager (active_connections m) (running_processes m) (f (process_output_buffers m)).

Definition set_terminals (f : dict Session.t -> dict Session.t) (s : Server) : Server :=
  mkServer (manager s) (f (_active_terminals s)) (_current_terminal_id s).

Definition set_current (c : json) (s : Server) : Server :=
  mkServer (manager s) (_active_terminals s) c.

Definition set_output (f : list string -> list string) (t : Session.t) : Session.t :=
  Session.make (Session.process t) (Session.shell t) (Session.cwd t)
               (Session.name t) (f (Session.output t)) (Session.created_at t).

(** The state at import time. *)
Definition initial : Server :=
  mkServer (mkManager [] ∅ ∅) [] JNull.

(* ===================================================================== *)
(** * Handler computations *)
(* ===================================================================== *)

(** How a coroutine ends: it returns, it raises, or it is suspended for
    ever on an await that never completes. *)
Inductive Res (A : Type) : Type :=
| Ok (a : A)
| Raise (e : PyExn)
| Hang.
Arguments Ok {A} a.
Arguments Raise {A} e.
Arguments Hang {A}.

(** What a coroutine does to the outside, in order. *)
Inductive Effect : Type :=
| Send (ws : WebSocket) (m : Message.t)       (** [websocket.send_text] *)
| StdinWrite (p : Process) (data : list byte) (** [p.stdin.write(data)] *)
| Print (line : string)                       (** [print(..., file=sys.stderr)] *)
| CreateTask (process_id : json) (process : Process).
    (** [asyncio.create_task(collect_process_output(process_id, process, _))] *)

Record Run (A : Type) : Type := mkRun {
  log : list Effect;
  final : Server;
  res : Res A
}.
Arguments mkRun {A} log final res.
Arguments log {A} r.
Arguments final {A} r.
Arguments res {A} r.

Definition M (A : Type) : Type := Server -> Run A.

Definition ret {A} (a : A) : M A := fun s => mkRun [] s (Ok a).
Definition raise {A} (e : PyExn) : M A := fun s => mkRun [] s (Raise e).
Definition hang {A} : M A := fun s => mkRun [] s Hang.

Definition bind {A B} (m : M A) (f : A -> M B) : M B :=
  fun s =>
    match m s with
    | mkRun l s' (Ok a) =>
        match f a s' with
        | mkRun l' s'' r => mkRun (l ++ l') s'' r
        end
    | mkRun l s' (Raise e) => mkRun l s' (Raise e)
    | mkRun l s' Hang => mkRun l s' Hang
    end.

#[global] Instance M_ret : MRet M := @ret.
#[global] Instance M_bind : MBind M := fun A B f m => bind m f.

(** [try: body  except Exception as e: handler(e)] *)
Definition try_except (body : M unit) (handler : PyExn -> M unit) : M unit :=
  fun s =>
    match body s with
    | mkRun l s' (Raise e) =>
        match handler e s' with
        | mkRun l' s'' r => mkRun (l ++ l') s'' r
        end
    | r => r
    end.

Definition gets {A} (f : Server -> A) : M A := fun s => mkRun [] s (Ok (f s)).
Definition modify (f : Server -> Server) : M unit := fun s => mkRun [] (f s) (Ok tt).
Definition effect (e : Effect) : M unit := fun s => mkRun [e] s (Ok tt).

(** A partial Python operation: [None] raises [e]. *)
Definition orelse {A} (e : PyExn) (o : option A) : M A :=
  match o with
  | Some a => ret a
  | None => raise e
  end.

(** The messages a log put on the wire. *)
Definition sent (l : list Effect) : list (WebSocket * Message.t) :=
  omap (fun e => match e with Send ws m => Some (ws, m) | _ => None end) l.

Definition stdin_writes (l : list Effect) : list (Process * list byte) :=
  omap (fun e => match e with StdinWrite p d => Some (p, d) | _ => None end) l.

Definition printed (l : list Effect) : list string :=
  omap (fun e => match e with Print x => Some x | _ => None end) l.

(** ** What the operating system decides *)

Inductive Outcome (A : Type) : Type :=
| Returns (a : A)
| Raises
| Blocks.
Arguments Returns {A} a.
Arguments Raises {A}.
Arguments Blocks {A}.

(** What a pipe delivers to a loop of
    [await asyncio.wait_for(stream.readline(), 0.1)]. *)
Inductive Stream : Type :=
| Silent                                  (** the wait times out *)
| Line (bs : list byte) (rest : Stream)   (** a line; [b""] at end of stream *)
| Broken                                  (** [readline] raises [ValueError] *)
| Endless.                                (** lines never stop coming *)

Record World : Type := mkWorld {
  str_e : string;                (** [str(e)] of the exception the call catches *)
  repr_container : json -> string; (** [str(v)] of a list or a dict *)
  getcwd : string;               (** [os.getcwd()] *)
  environ_shell : string;        (** [os.environ.get("SHELL", "/bin/bash")] *)
  uuid4 : string;                (** [str(uuid.uuid4())] *)
  time_now : Z;                  (** [time.time()] *)
  spawn : Outcome Process;       (** [await asyncio.create_subprocess_*] *)
  kill_wait : Outcome unit;      (** [p.kill(); await p.wait()] *)
  stdin_drain : Outcome unit;    (** [p.stdin.write(..); await p.stdin.drain()] *)
  stream : Stream;               (** the child's stdout after that *)
  stdin_drain2 : Outcome unit;   (** the second write of a call, and *)
  stream2 : Stream;              (** the child's stdout after it *)
  has_lein : bool;               (** [os.path.exists(.../project.clj)] *)
  has_deps_edn : bool;           (** [os.path.exists(.../deps.edn)] *)
  shim : Outcome json            (** the [try] block of a stateless handler *)
}.

Definition os {A} (o : Outcome A) : M A :=
  match o with
  | Returns a => ret a
  | Raises => raise OSError
  | Blocks => hang
  end.

(** [str(v)] and [f"{v}"]. *)
Definition format (w : World) (v : json) : string :=
  match v with
  | JNull => "None"
  | JBool true => "True"
  | JBool false => "False"
  | JInt z => str_of_Z z
  | JStr s => s
  | _ => repr_container w v
  end.

(** The read loop shared by the terminal handlers:
    [while True: try: line = await wait_for(readline(), 0.1);
                      if not line: break
                      output.append(line.decode().rstrip())
                 except asyncio.TimeoutError: break] *)
Fixpoint read_lines (st : Stream) : Res (list string) :=
  match st with
  | Silent => Ok []
  | Line [] _ => Ok []
  | Line bs rest =>
      match decode bs with
      | None => Raise UnicodeDecodeError
      | Some line =>
          match read_lines rest with
          | Ok ls => Ok (rstrip line :: ls)
          | Raise e => Raise e
          | Hang => Hang
          end
      end
  | Broken => Raise ValueError
  | Endless => Hang
  end.

Definition lift {A} (r : Res A) : M A := fun s => mkRun [] s r.

(** ** [ConnectionManager] methods *)

Definition connect (websocket : WebSocket) : M unit :=
  modify (set_manager (set_connections (fun l => l ++ [websocket]))).

(** [list.remove]: the first occurrence, [ValueError] when there is none. *)
Fixpoint list_remove (x : WebSocket) (l : list WebSocket) : option (list WebSocket) :=
  match l with
  | [] => None
  | y :: l' => if Nat.eqb x y then Some l'
               else match list_remove x l' with
                    | Some r => Some (y :: r)
                    | None => None
                    end
  end.

Definition disconnect (websocket : WebSocket) : M unit :=
  l ← gets (fun s => active_connections (manager s));
  l' ← orelse ValueError (list_remove websocket l);
  modify (set_manager (set_connections (fun _ => l'))).

(** The two envelopes the server builds. *)
Definition response_of (message_id : string) (result : json) : Message.t :=
  Message.make RESPONSE message_id None None result None.

Definition error_of (message_id : string) (error_code : Z) (error_message : string)
    : Message.t :=
  Message.make ERROR message_id None None JNull
    (Some [("code", JInt error_code); ("message", JStr error_message)]).

Definition send_response (message_id : string) (result : json) (websocket : WebSocket)
    : M unit :=
  effect (Send websocket (response_of message_id result)).

Definition send_error (message_id : string) (error_code : Z) (error_message : string)
    (websocket : WebSocket) : M unit :=
  effect (Send websocket (error_of message_id error_code error_message)).

(* ===================================================================== *)
(** * The process supervisor (main.py) *)
(* ===================================================================== *)

Definition Handler : Type := World -> string -> dict json -> WebSocket -> M unit.

(** [env = os.environ.copy(); env.update(env_vars)] *)
Definition update_env (env_vars : json) : M unit :=
  match update_error env_vars with
  | None => ret tt
  | Some e => raise e
  end.

(** Every stateless handler of main.py has the shape
    [try: <OS work>; await send_response(id, result)
     except Exception as e: await send_error(id, 500, str(e))]. *)
Definition try_shim (w : World) (message_id : string) (websocket : WebSocket) : M unit :=
  try_except
    (result ← os (shim w);
     send_response message_id result websocket)
    (fun _ => send_error message_id 500 (str_e w) websocket).

Definition handle_execute_command : Handler :=
  fun w message_id params websocket =>
    update_env (get params "env" (JObj []));;
    try_shim w message_id websocket.

Definition handle_start_long_running_command : Handler :=
  fun w message_id params websocket =>
    let process_id := get params "processId" (JStr message_id) in
    update_env (get params "env" (JObj []));;
    try_except
      (process ← os (spawn w);
       k ← orelse TypeError (hash process_id);
       modify (set_manager (set_running <[k := process]>));;
       modify (set_manager (set_buffers <[k := []]>));;
       effect (CreateTask process_id process);;
       send_response message_id
         (JObj [("processId", process_id); ("status", JStr "started")]) websocket)
      (fun _ => send_error message_id 500 (str_e w) websocket).

(** [manager.process_output_buffers[process_id].append(line)] *)
Definition append_output (process_id : json) (line : string) : M unit :=
  k ← orelse TypeError (hash process_id);
  bufs ← gets (fun s => process_output_buffers (manager s));
  l ← orelse KeyError (bufs !! k);
  modify (set_manager (set_buffers <[k := l ++ [line]]>)).

(** [del manager.running_processes[process_id]] *)
Definition del_running (process_id : json) : M unit :=
  k ← orelse TypeError (hash process_id);
  procs ← gets (fun s => running_processes (manager s));
  _ ← orelse KeyError (procs !! k);
  modify (set_manager (set_running (delete k))).

(** What one [await asyncio.wait_for(stream.readline(), 0.1)] gives. *)
Inductive Read : Type :=
| Timeout                    (** [asyncio.TimeoutError] *)
| Bytes (bs : list byte)     (** a line, or [b""] at end of stream *)
| ReadError.                 (** [readline] raises [ValueError] *)

(** What the pump sees of its process in one turn of its loop. *)
Record Poll : Type := mkPoll {
  stdout_at_eof : bool;
  stderr_at_eof : bool;
  returncode : option Z;
  stdout_line : Read;
  stderr_line : Read
}.

Inductive Loop : Type := Continue | Break.

(** One guarded read of the pump: only the timeout is caught. *)
Definition pump_read (process_id : json) (r : Read) (prefix : string) : M unit :=
  match r with
  | Timeout => ret tt
  | ReadError => raise ValueError
  | Bytes [] => ret tt
  | Bytes bs =>
      line ← orelse UnicodeDecodeError (decode bs);
      append_output process_id (prefix +:+ rstrip line)
  end.

Definition pump_reads (process_id : json) (p : Poll) : M Loop :=
  pump_read process_id (stdout_line p) "";;
  pump_read process_id (stderr_line p) "ERROR: ";;
  ret Continue.

(** One turn of the [while True] loop of [collect_process_output]. *)
Definition pump_turn (process_id : json) (p : Poll) : M Loop :=
  if stdout_at_eof p && stderr_at_eof p then
    match returncode p with
    | Some exit_code =>
        append_output process_id ("Process exited with code " +:+ str_of_Z exit_code);;
        del_running process_id;;
        ret Break
    | None => pump_reads process_id p
    end
  else pump_reads process_id p.

(** The background task, run over the polls it gets to make. [Ok Continue]:
    still looping after them; [Ok Break]: the coroutine returned; [Raise e]:
    the task died of [e]. *)
Fixpoint collect_process_output (process_id : json) (process : Process)
    (websocket : WebSocket) (polls : list Poll) : M Loop :=
  match polls with
  | [] => ret Continue
  | p :: polls' =>
      l ← pump_turn process_id p;
      match l with
      | Break => ret Break
      | Continue => collect_process_output process_id process websocket polls'
      end
  end.

Definition handle_get_process_output : Handler :=
  fun w message_id params websocket =>
    let process_id := get params "processId" (JStr "") in
    k ← orelse TypeError (hash process_id);
    bufs ← gets (fun s => process_output_buffers (manager s));
    match bufs !! k with
    | None =>
        send_error message_id 404
          ("Process " +:+ format w process_id +:+ " not found") websocket
    | Some output_lines =>
        modify (set_manager (set_buffers <[k := []]>));;
        procs ← gets (fun s => running_processes (manager s));
        let is_running := bool_decide (is_Some (procs !! k)) in
        send_response message_id
          (JObj [("output", JArr (map JStr output_lines));
                 ("isRunning", JBool is_running)]) websocket
    end.

(** The part of [handle_kill_process] that runs once [await process.wait()]
    has returned. *)
Definition kill_after_wait (k : pykey) (message_id : string) (websocket : WebSocket) : M unit :=
  procs ← gets (fun s => running_processes (manager s));
  (if bool_decide (is_Some (procs !! k))
   then modify (set_manager (set_running (delete k)))
   else ret tt);;
  send_response message_id (JObj [("status", JStr "killed")]) websocket.

Definition handle_kill_process : Handler :=
  fun w message_id params websocket =>
    let process_id := get params "processId" (JStr "") in
    k ← orelse TypeError (hash process_id);
    procs ← gets (fun s => running_processes (manager s));
    match procs !! k with
    | None =>
        send_error message_id 404
          ("Process " +:+ format w process_id +:+ " not found") websocket
    | Some process =>
        try_except
          (os (kill_wait w);;
           kill_after_wait k message_id websocket)
          (fun _ => send_error message_id 500 (str_e w) websocket)
    end.

Definition handle_read_file : Handler := fun w message_id _ websocket => try_shim w message_id websocket.
Definition handle_write_file : Handler := fun w message_id _ websocket => try_shim w message_id websocket.
Definition handle_list_directory : Handler := fun w message_id _ websocket => try_shim w message_id websocket.
Definition handle_create_directory : Handler := fun w message_id _ websocket => try_shim w message_id websocket.
Definition handle_delete_file : Handler := fun w message_id _ websocket => try_shim w message_id websocket.
Definition handle_rename_file : Handler := fun w message_id _ websocket => try_shim w message_id websocket.
Definition handle_search_files : Handler := fun w message_id _ websocket => try_shim w message_id websocket.
Definition handle_check_python_env : Handler := fun w message_id _ websocket => try_shim w message_id websocket.
Definition handle_check_clojure_env : Handler := fun w message_id _ websocket => try_shim w message_id websocket.

Definition METHOD_HANDLERS : dict Handler :=
  [ ("executeCommand", handle_execute_command);
    ("startLongRunningCommand", handle_start_long_running_command);
    ("getProcessOutput", handle_get_process_output);
    ("killProcess", handle_kill_process);
    ("readFile", handle_read_file);
    ("writeFile", handle_write_file);
    ("listDirectory", handle_list_directory);
    ("createDirectory", handle_create_directory);
    ("deleteFile", handle_delete_file);
    ("renameFile", handle_rename_file);
    ("searchFiles", handle_search_files);
    ("checkPythonEnvironment", handle_check_python_env);
    ("checkClojureEnvironment", handle_check_clojure_env) ].

(* ===================================================================== *)
(** * The terminal multiplexer (terminal_repl.py) *)
(* ===================================================================== *)

(** [terminal_id in _active_terminals]: the operand is hashed first; the
    keys are the [str] ids the module generated. *)
Definition contains {V} (terminal_id : json) (d : dict V) : M bool :=
  k ← orelse TypeError (hash terminal_id);
  ret (match k with
       | KStr s => bool_decide (is_Some (dict_get s d))
       | _ => false
       end).

(** [_active_terminals[terminal_id]] *)
Definition lookup {V} (terminal_id : json) (d : dict V) : M V :=
  k ← orelse TypeError (hash terminal_id);
  match k with
  | KStr s => orelse KeyError (dict_get s d)
  | _ => raise KeyError
  end.

(** [terminal['output'].extend(lines)] for the session stored under
    [terminal_id]. *)
Definition extend_output (terminal_id : json) (lines : list string) : M unit :=
  match terminal_id with
  | JStr s => modify (set_terminals (fun d =>
                match dict_get s d with
                | Some t => dict_set s (set_output (fun o => o ++ lines) t) d
                | None => d
                end))
  | _ => ret tt
  end.

Definition not_found (w : World) (terminal_id : json) : string :=
  "Terminal session with ID " +:+ format w terminal_id +:+ " not found".

Definition lines_json (lines : list string) : json := JArr (map JStr lines).
Definition len_json {A} (l : list A) : json := JInt (Z.of_nat (length l)).

(** The checks that open most handlers: a falsy id is a 400, an id that
    is not a key a 404; [body] runs otherwise. *)
Definition with_terminal (w : World) (terminal_id : json) (message_id : string)
    (websocket : WebSocket) (body : M unit) : M unit :=
  if negb (truthy terminal_id) then
    send_error message_id 400 "No active terminal session" websocket
  else
    terminals ← gets _active_terminals;
    present ← contains terminal_id terminals;
    if negb present then
      send_error message_id 404 (not_found w terminal_id) websocket
    else body.

(** [_execute_terminal_command(command, terminal_id)] *)
Definition _execute_terminal_command (w : World) (command : string) (terminal_id : json)
    : M (list string) :=
  current ← gets _current_terminal_id;
  (if negb (truthy terminal_id) && negb (truthy current)
   then raise ValueError else ret tt);;
  let terminal_id := if truthy terminal_id then terminal_id else current in
  terminals ← gets _active_terminals;
  present ← contains terminal_id terminals;
  (if negb present then raise ValueError else ret tt);;
  terminal ← lookup terminal_id terminals;
  effect (StdinWrite (Session.process terminal) (encode (command +:+ LF)));;
  os (stdin_drain w);;
  output ← lift (read_lines (stream w));
  extend_output terminal_id output;;
  ret output.

Definition handle_create_terminal_session : Handler :=
  fun w message_id params websocket =>
    let shell := get params "shell" (JStr (environ_shell w)) in
    let cwd := get params "cwd" (JStr (getcwd w)) in
    terminals ← gets _active_terminals;
    let name := get params "name"
                  (JStr ("Terminal-" +:+ str_of_Z (Z.of_nat (length terminals) + 1))) in
    try_except
      (let terminal_id := uuid4 w in
       process ← os (spawn w);
       modify (set_terminals
                 (dict_set terminal_id
                    (Session.make process shell cwd name [] (time_now w))));;
       current ← gets _current_terminal_id;
       (if negb (truthy current)
        then modify (set_current (JStr terminal_id)) else ret tt);;
       initial_output ← lift (read_lines (stream w));
       terminals ← gets _active_terminals;
       _ ← lookup (JStr terminal_id) terminals;
       extend_output (JStr terminal_id) initial_output;;
       send_response message_id
         (JObj [("terminalId", JStr terminal_id); ("name", name);
                ("shell", shell); ("initialOutput", lines_json initial_output)])
         websocket)
      (fun _ => send_error message_id 500 (str_e w) websocket).

Definition session_json (current : json) (entry : string * Session.t) : json :=
  let '(terminal_id, terminal) := entry in
  JObj [("terminalId", JStr terminal_id);
        ("name", Session.name terminal);
        ("shell", Session.shell terminal);
        ("cwd", Session.cwd terminal);
        ("isCurrent", JBool (py_eq (JStr terminal_id) current));
        ("createdAt", JInt (Session.created_at terminal));
        ("outputLineCount", len_json (Session.output terminal))].

Definition handle_list_terminal_sessions : Handler :=
  fun w message_id params websocket =>
    try_except
      (terminals ← gets _active_terminals;
       current ← gets _current_terminal_id;
       send_response message_id
         (JObj [("sessions", JArr (map (session_json current) terminals))]) websocket)
      (fun _ => send_error message_id 500 (str_e w) websocket).

Definition handle_switch_terminal_session : Handler :=
  fun w message_id params websocket =>
    let terminal_id := get params "terminalId" (JStr "") in
    if negb (truthy terminal_id) then
      send_error message_id 400 "Terminal ID is required" websocket
    else
      terminals ← gets _active_terminals;
      present ← contains terminal_id terminals;
      if negb present then
        send_error message_id 404 (not_found w terminal_id) websocket
      else
        try_except
          (modify (set_current terminal_id);;
           terminals ← gets _active_terminals;
           terminal ← lookup terminal_id terminals;
           send_response message_id
             (JObj [("terminalId", terminal_id);
                    ("name", Session.name terminal);
                    ("shell", Session.shell terminal);
                    ("cwd", Session.cwd terminal)]) websocket)
          (fun _ => send_error message_id 500 (str_e w) websocket).

(** [del _active_terminals[terminal_id]] *)
Definition del_terminal (terminal_id : json) : M unit :=
  terminals ← gets _active_terminals;
  _ ← lookup terminal_id terminals;
  match terminal_id with
  | JStr s => modify (set_terminals (dict_del s))
  | _ => ret tt
  end.

(** [next(iter(_active_terminals))] on a dict that is not empty. *)
Definition first_key (terminals : dict Session.t) : json :=
  match terminals with
  | (k, _) :: _ => JStr k
  | [] => JNull
  end.

(** The part of [handle_close_terminal_session] that runs once
    [await terminal['process'].wait()] has returned: lines 206-220. *)
Definition close_after_wait (w : World) (terminal_id : json) (message_id : string)
    (websocket : WebSocket) : M unit :=
  del_terminal terminal_id;;
  current ← gets _current_terminal_id;
  (if py_eq terminal_id current then
     terminals ← gets _active_terminals;
     match terminals with
     | _ :: _ => modify (set_current (first_key terminals))
     | [] => modify (set_current JNull)
     end
   else ret tt);;
  current ← gets _current_terminal_id;
  send_response message_id
    (JObj [("success", JBool true);
           ("message",
            JStr ("Terminal session " +:+ format w terminal_id +:+ " closed"));
           ("currentTerminalId", current)]) websocket.

Definition handle_close_terminal_session : Handler :=
  fun w message_id params websocket =>
    current ← gets _current_terminal_id;
    let terminal_id := get params "terminalId" current in
    with_terminal w terminal_id message_id websocket
      (try_except
         (terminals ← gets _active_terminals;
          terminal ← lookup terminal_id terminals;
          os (kill_wait w);;
          close_after_wait w terminal_id message_id websocket)
         (fun _ => send_error message_id 500 (str_e w) websocket)).

Definition handle_write_to_terminal : Handler :=
  fun w message_id params websocket =>
    let text := get params "text" (JStr "") in
    current ← gets _current_terminal_id;
    let terminal_id := get params "terminalId" current in
    if negb (truthy text) then
      send_error message_id 400 "Text to write is required" websocket
    else
      with_terminal w terminal_id message_id websocket
        (try_except
           (terminals ← gets _active_terminals;
            terminal ← lookup terminal_id terminals;
            effect (StdinWrite (Session.process terminal)
                      (encode (format w text +:+ LF)));;
            os (stdin_drain w);;
            output ← lift (read_lines (stream w));
            extend_output terminal_id output;;
            send_response message_id
              (JObj [("output", lines_json output);
                     ("lineCount", len_json output)]) websocket)
           (fun _ => send_error message_id 500 (str_e w) websocket)).

(** The window [handle_read_terminal_output] cuts out of the history:
    [history[-line_count:] if history else []] from the end,
    [history[:line_count] if history else []] otherwise. *)
Definition window (line_count from_end : json) (history : list string)
    : M (list string) :=
  match history with
  | [] => ret []
  | _ :: _ =>
      if truthy from_end then
        n ← orelse TypeError (as_index line_count);
        ret (slice_from (- n) history)
      else
        match line_count with
        | JNull => ret history
        | _ => n ← orelse TypeError (as_index line_count);
               ret (slice_to n history)
        end
  end.

Definition handle_read_terminal_output : Handler :=
  fun w message_id params websocket =>
    let line_count := get params "lineCount" (JInt 10) in
    let from_end := get params "fromEnd" (JBool true) in
    current ← gets _current_terminal_id;
    let terminal_id := get params "terminalId" current in
    with_terminal w terminal_id message_id websocket
      (try_except
         (terminals ← gets _active_terminals;
          terminal ← lookup terminal_id terminals;
          output ← window line_count from_end (Session.output terminal);
          send_response message_id
            (JObj [("output", lines_json output);
                   ("lineCount", len_json output);
                   ("totalLines", len_json (Session.output terminal))]) websocket)
         (fun _ => send_error message_id 500 (str_e w) websocket)).

(** The table [ctrl_chars] of [handle_send_control_character]. *)
Definition ctrl_chars : dict Z :=
  [("c", 3); ("d", 4); ("z", 26); ("l", 12); ("a", 1); ("e", 5); ("u", 21); ("r", 18)].

(** [bytes([n])]: [n] must be in [range(256)]. *)
Definition byte_of_code (n : Z) : option byte :=
  if (0 <=? n) && (n <? 256) then Byte.of_N (Z.to_N n) else None.

(** [character.lower()]: only a [str] has the method. *)
Definition lower_of (v : json) : M string :=
  match v with
  | JStr s => ret (lower s)
  | _ => raise AttributeError
  end.

Definition handle_send_control_character : Handler :=
  fun w message_id params websocket =>
    let character := get params "character" (JStr "") in
    current ← gets _current_terminal_id;
    let terminal_id := get params "terminalId" current in
    if negb (truthy character) then
      send_error message_id 400 "Control character is required" websocket
    else
      with_terminal w terminal_id message_id websocket
        (try_except
           (terminals ← gets _active_terminals;
            terminal ← lookup terminal_id terminals;
            lowered ← lower_of character;
            match dict_get lowered ctrl_chars with
            | None =>
                send_error message_id 400
                  ("Unsupported control character: " +:+ format w character) websocket
            | Some char_code =>
                b ← orelse ValueError (byte_of_code char_code);
                effect (StdinWrite (Session.process terminal) [b]);;
                os (stdin_drain w);;
                output ← lift (read_lines (stream w));
                extend_output terminal_id output;;
                send_response message_id
                  (JObj [("success", JBool true);
                         ("character", character);
                         ("output", lines_json output);
                         ("lineCount", len_json output)]) websocket
            end)
           (fun _ => send_error message_id 500 (str_e w) websocket)).

Definition handle_clear_terminal_output : Handler :=
  fun w message_id params websocket =>
    current ← gets _current_terminal_id;
    let terminal_id := get params "terminalId" current in
    with_terminal w terminal_id message_id websocket
      (try_except
         (terminals ← gets _active_terminals;
          terminal ← lookup terminal_id terminals;
          match terminal_id with
          | JStr s => modify (set_terminals (dict_set s (set_output (fun _ => []) terminal)))
          | _ => ret tt
          end;;
          send_response message_id
            (JObj [("success", JBool true);
                   ("message",
                    JStr ("Terminal output cleared for session "
                          +:+ format w terminal_id))]) websocket)
         (fun _ => send_error message_id 500 (str_e w) websocket)).

(** The command that starts the REPL of a given kind, if the kind is known. *)
Definition repl_command (lowered : string) : option string :=
  if String.eqb lowered "python" then Some "python3"
  else if String.eqb lowered "clojure" || String.eqb lowered "clj" then Some "clj"
  else if String.eqb lowered "clojurescript" || String.eqb lowered "cljs"
  then Some "clj -m cljs.main"
  else None.

Definition handle_execute_repl_command : Handler :=
  fun w message_id params websocket =>
    let command := get params "command" (JStr "") in
    let repl_type := get params "repl" (JStr "") in
    current ← gets _current_terminal_id;
    let terminal_id := get params "terminalId" current in
    if negb (truthy command) then
      send_error message_id 400 "Command is required" websocket
    else if negb (truthy repl_type) then
      send_error message_id 400 "REPL type is required" websocket
    else
      with_terminal w terminal_id message_id websocket
        (try_except
           (terminals ← gets _active_terminals;
            terminal ← lookup terminal_id terminals;
            lowered ← lower_of repl_type;
            match repl_command lowered with
            | None =>
                send_error message_id 400
                  ("Unsupported REPL type: " +:+ format w repl_type) websocket
            | Some start =>
                _ ← _execute_terminal_command w start terminal_id;
                effect (StdinWrite (Session.process terminal)
                          (encode (format w command +:+ LF)));;
                os (stdin_drain2 w);;
                output ← lift (read_lines (stream2 w));
                extend_output terminal_id output;;
                send_response message_id
                  (JObj [("repl", repl_type);
                         ("command", command);
                         ("output", lines_json output);
                         ("lineCount", len_json output)]) websocket
            end)
           (fun _ => send_error message_id 500 (str_e w) websocket)).

Definition TERMINAL_HANDLERS : dict Handler :=
  [ ("createTerminalSession", handle_create_terminal_session);
    ("listTerminalSessions", handle_list_terminal_sessions);
    ("switchTerminalSession", handle_switch_terminal_session);
    ("closeTerminalSession", handle_close_terminal_session);
    ("writeToTerminal", handle_write_to_terminal);
    ("readTerminalOutput", handle_read_terminal_output);
    ("sendControlCharacter", handle_send_control_character);
    ("clearTerminalOutput", handle_clear_terminal_output);
    ("executeReplCommand", handle_execute_repl_command) ].

(* ===================================================================== *)
(** * The Clojure REPL handler (clojure_extension.py) *)
(* ===================================================================== *)

(** [code + "\n"]: only a [str] can be added to a [str]. *)
Definition add_newline (code : json) : M string :=
  match code with
  | JStr c => ret (c +:+ LF)
  | _ => raise TypeError
  end.

(** [os.path.join(project_path, name)]: the path must be a [str]. *)
Definition check_path (project_path : json) : M unit :=
  match project_path with
  | JStr _ => ret tt
  | _ => raise TypeError
  end.

(** The [eval] action works on what is in the buffer when it gets there:
    what the pump appends during the half-second sleep of the handler is
    the business of the interleaving, not of this call. *)
Definition handle_clojure_repl : Handler :=
  fun w message_id params websocket =>
    let action := get params "action" (JStr "start") in
    let process_id := get params "processId" (JStr "") in
    let code := get params "code" (JStr "") in
    let project_path := get params "projectPath" (JStr (getcwd w)) in
    try_except
      (if py_eq action (JStr "start") then
         check_path project_path;;
         let command := if has_lein w then "lein repl"
                        else if has_deps_edn w then "clojure -M:repl"
                        else "clojure" in
         handle_start_long_running_command w message_id
           [("command", JStr command); ("cwd", project_path);
            ("processId", JStr ("clj_repl_" +:+ message_id))] websocket
       else if py_eq action (JStr "eval") && truthy process_id && truthy code then
         k ← orelse TypeError (hash process_id);
         procs ← gets (fun s => running_processes (manager s));
         match procs !! k with
         | None =>
             send_error message_id 404
               ("REPL process " +:+ format w process_id +:+ " not found") websocket
         | Some process =>
             code_with_newline ← add_newline code;
             effect (StdinWrite process (encode code_with_newline));;
             os (stdin_drain w);;
             bufs ← gets (fun s => process_output_buffers (manager s));
             output_lines ← orelse KeyError (bufs !! k);
             modify (set_manager (set_buffers <[k := []]>));;
             send_response message_id
               (JObj [("result", JStr (String.concat LF output_lines));
                      ("processId", process_id)]) websocket
         end
       else if py_eq action (JStr "stop") && truthy process_id then
         handle_kill_process w message_id [("processId", process_id)] websocket
       else
         send_error message_id 400 "Invalid REPL action or missing parameters" websocket)
      (fun _ => send_error message_id 500 (str_e w) websocket).

(** The entry of the extension's table that touches the supervisor. *)
Definition CLOJURE_HANDLERS : dict Handler :=
  [ ("clojureRepl", handle_clojure_repl) ].

(* ===================================================================== *)
(** * The dispatcher ([websocket_endpoint] of main.py) *)
(* ===================================================================== *)

(** [d.update(d')] *)
Definition dict_update {V} (d d' : dict V) : dict V :=
  fold_left (fun acc kv => dict_set (fst kv) (snd kv) acc) d' d.

(** The table once the extension and the terminal module are loaded. *)
Definition ALL_HANDLERS : dict Handler :=
  dict_update (dict_update METHOD_HANDLERS CLOJURE_HANDLERS) TERMINAL_HANDLERS.

(** What [json.loads(data)] makes of a received frame. *)
Inductive Frame : Type :=
| InvalidJSON                   (** [json.JSONDecodeError] *)
| Json (message_data : json).

(** [message.method] as a condition: neither [None] nor empty. *)
Definition method_given (m : Message.t) : option string :=
  match Message.method m with
  | Some name => if String.eqb name "" then None else Some name
  | None => None
  end.

(** [message.params or {}] *)
Definition params_or_empty (m : Message.t) : dict json :=
  match Message.params m with
  | Some p => p
  | None => []
  end.

(** Lines 426-439: what the loop does with a decoded message. *)
Definition dispatch (handlers : dict Handler) (w : World) (message : Message.t)
    (websocket : WebSocket) : M unit :=
  match Message.type message, method_given message with
  | REQUEST, Some name =>
      match dict_get name handlers with
      | Some handler =>
          handler w (Message.id message) (params_or_empty message) websocket
      | None =>
          send_error (Message.id message) 404
            ("Method '" +:+ name +:+ "' not found") websocket
      end
  | _, _ => ret tt
  end.

(** [Message] built from the decoded frame: a [TypeError] when the frame
    is not an object, a [ValidationError] when a field is wrong. *)
Definition decode_message (message_data : json) : M Message.t :=
  match message_data with
  | JObj _ => orelse ValidationError (Message_validate message_data)
  | _ => raise TypeError
  end.

(** Lines 421-445: one turn of the receive loop on one frame. *)
Definition receive (handlers : dict Handler) (websocket : WebSocket) (frame : Frame)
    (w : World) : M unit :=
  match frame with
  | InvalidJSON => ret tt
  | Json message_data =>
      try_except
        (message ← decode_message message_data;
         dispatch handlers w message websocket)
        (fun _ => effect (Print ("Error processing message: " +:+ str_e w)))
  end.

(** The receive loop over the frames a client sends before it leaves. *)
Fixpoint serve (handlers : dict Handler) (websocket : WebSocket)
    (frames : list (Frame * World)) : M unit :=
  match frames with
  | [] => ret tt
  | (frame, w) :: frames' =>
      receive handlers websocket frame w;;
      serve handlers websocket frames'
  end.

(** [websocket_endpoint]: connect, serve until [WebSocketDisconnect],
    disconnect. *)
Definition websocket_endpoint (handlers : dict Handler) (websocket : WebSocket)
    (frames : list (Frame * World)) : M unit :=
  connect websocket;;
  serve handlers websocket frames;;
  disconnect websocket.

(** ** The event loop *)

(** The tasks of the event loop take turns: a channel handles a frame, a
    pump makes one turn of its loop. *)
Inductive Event : Type :=
| Receive (websocket : WebSocket) (frame : Frame) (w : World)
| Pump (process_id : json) (poll : Poll).

(** A task that dies of an exception takes nothing else down with it. *)
Definition turn (handlers : dict Handler) (e : Event) (s : Server) : Run unit :=
  match e with
  | Receive websocket frame w => receive handlers websocket frame w s
  | Pump process_id poll =>
      match pump_turn process_id poll s with
      | mkRun l s' _ => mkRun l s' (Ok tt)
      end
  end.

Fixpoint run (handlers : dict Handler) (events : list Event) (s : Server) : Server :=
  match events with
  | [] => s
  | e :: events' => run handlers events' (final (turn handlers e s))
  end.

(* ===================================================================== *)
(** * Properties of computations *)
(* ===================================================================== *)

(** A reply to the request [message_id]: a Response or an Error that
    carries the same id. *)
Definition is_reply (message_id : string) (m : Message.t) : Prop :=
  Message.id m = message_id
  /\ (Message.type m = RESPONSE \/ Message.type m = ERROR).

(** The computation puts nothing on the wire. *)
Definition silent {A} (m : M A) : Prop :=
  forall s, sent (log (m s)) = [].

(** The computation sends exactly one reply when it returns and nothing
    when it raises or hangs. *)
Definition replies {A} (websocket : WebSocket) (message_id : string) (m : M A) : Prop :=
  forall s,
    match res (m s) with
    | Ok _ => exists x, sent (log (m s)) = [(websocket, x)] /\ is_reply message_id x
    | _ => sent (log (m s)) = []
    end.

Definition disciplined (h : Handler) : Prop :=
  forall w message_id params websocket, replies websocket message_id (h w message_id params websocket).


(** The computation keeps [P] true of the state, however it ends. *)
Definition keeps {A} (P : Server -> Prop) (m : M A) : Prop :=
  forall s, P s -> P (final (m s)).

(** The pointer of the multiplexer is null or a key of the session map. *)
Definition pointer_ok (s : Server) : Prop :=
  _current_terminal_id s = JNull
  \/ exists k, _current_terminal_id s = JStr k /\ In k (dict_keys (_active_terminals s)).

(** The key has an output buffer. *)
Definition buffered (k : pykey) (s : Server) : Prop :=
  is_Some (process_output_buffers (manager s) !! k).

(** The call was answered with a Response, and with nothing else. *)
Definition succeeded (websocket : WebSocket) (r : Run unit) : Prop :=
  exists m, sent (log r) = [(websocket, m)] /\ Message.type m = RESPONSE.

(** The envelope invariant as the specification words it: a Request has a
    method, params and a non-empty id and neither result nor error; a
    Response has a result only; an Error has an error only. *)
Definition populated (v : option json) : bool :=
  match v with
  | None | Some JNull => false
  | Some _ => true
  end.

Definition spec_variant_invariant (kvs : dict json) : bool :=
  let m := populated (dict_get "method" kvs) in
  let p := populated (dict_get "params" kvs) in
  let r := populated (dict_get "result" kvs) in
  let e := populated (dict_get "error" kvs) in
  match dict_get "type" kvs with
  | Some (JStr "request") =>
      m && p && negb r && negb e && truthy (get kvs "id" JNull)
  | Some (JStr "response") => negb m && negb p && r && negb e
  | Some (JStr "error") => negb m && negb p && negb r && e
  | _ => false
  end.

(** A frame the loop cannot turn into a [Message]. *)
Definition undecodable (frame : Frame) : Prop :=
  match frame with
  | InvalidJSON => True
  | Json message_data => Message_validate message_data = None
  end.

(** The lines one turn of the pump appends when nothing goes wrong. *)
Definition read_line (r : Read) (prefix : string) : list string :=
  match r with
  | Bytes (b :: bs) =>
      match decode (b :: bs) with
      | Some line => [prefix +:+ rstrip line]
      | None => []
      end
  | _ => []
  end.


(** The result [handle_get_process_output] sends. *)
Definition drained (lines : list string) (is_running : bool) : json :=
  JObj [("output", JArr (map JStr lines)); ("isRunning", JBool is_running)].

Definition drain (process_id : json) (w : World) (message_id : string)
    (websocket : WebSocket) : M unit :=
  handle_get_process_output w message_id [("processId", process_id)] websocket.

Definition exit_marker (exit_code : Z) : string :=
  "Process exited with code " +:+ str_of_Z exit_code.

(** ** Sample inputs *)

Definition request (i method : string) (params : dict json) : json :=
  JObj [("type", JStr "request"); ("id", JStr i);
        ("method", JStr method); ("params", JObj params)].

(** A world where every call succeeds at once and the pipes are quiet. *)
Definition calm : World :=
  mkWorld "error" (fun _ => "[...]") "/srv" "/bin/bash" "7f3c" 1700000000
          (Returns (Proc 1)) (Returns tt) (Returns tt) Silent
          (Returns tt) Silent false false (Returns (JObj [])).


(** The id a frame carries when it decodes to a message. *)
Definition frame_id (frame : Frame) : option string :=
  match frame with
  | InvalidJSON => None
  | Json message_data =>
      match Message_validate message_data with
      | Some message => Some (Message.id message)
      | None => None
      end
  end.




(** The bytes of ["hi\n"], of ["ok\n"], and a line that is not UTF-8. *)
Definition line_hi : list byte := [Byte.x68; Byte.x69; Byte.x0a].
Definition line_ok : list byte := [Byte.x6f; Byte.x6b; Byte.x0a].
Definition line_bad : list byte := [Byte.xff; Byte.x0a].


(** A session that has three lines of history. *)
Definition abc_session : Session.t :=
  Session.make (Proc 2) (JStr "/bin/bash") (JStr "/srv") (JStr "Terminal-1")
    ["a"; "b"; "c"] 1700000000.

Definition abc_server : Server :=
  mkServer (mkManager [] ∅ ∅) [("7f3c", abc_session)] (JStr "7f3c").

(** A second session, and a server that has both with the first current. *)
Definition xyz_session : Session.t :=
  Session.make (Proc 3) (JStr "/bin/bash") (JStr "/srv") (JStr "Terminal-2")
    ["x"] 1700000001.

Definition two_sessions : Server :=
  mkServer (mkManager [] ∅ ∅) [("7f3c", abc_session); ("9a1d", xyz_session)]
    (JStr "7f3c").

(* ===================================================================== *)
(** * More of the wire format and of the module's life cycle *)
(* ===================================================================== *)

Definition MessageType_value (t : MessageType) : string :=
  match t with
  | REQUEST => "request"
  | RESPONSE => "response"
  | ERROR => "error"
  end.

Definition json_of_str (o : option string) : json :=
  match o with
  | Some s => JStr s
  | None => JNull
  end.

Definition json_of_dict (o : option (dict json)) : json :=
  match o with
  | Some d => JObj d
  | None => JNull
  end.

(** What [json.loads] reads back from [message.model_dump_json()], the
    text [send_response] and [send_error] put on the wire: every field of
    the model, [None] as null, the type by its value. *)
Definition model_dump (m : Message.t) : json :=
  JObj [("type", JStr (MessageType_value (Message.type m)));
        ("id", JStr (Message.id m));
        ("method", json_of_str (Message.method m));
        ("params", json_of_dict (Message.params m));
        ("result", Message.result m);
        ("error", json_of_dict (Message.error m))].

(** The connections of the registry. *)
Definition connections (s : Server) : list WebSocket :=
  active_connections (manager s).

(** The history of the session stored under [k], if there is one. *)
Definition history (k : string) (s : Server) : option (list string) :=
  match dict_get k (_active_terminals s) with
  | Some t => Some (Session.output t)
  | None => None
  end.

(** A world where killing raises. *)
Definition stuck_kill : World :=
  mkWorld "error" (fun _ => "[...]") "/srv" "/bin/bash" "7f3c" 1700000000
          (Returns (Proc 1)) Raises (Returns tt) Silent
          (Returns tt) Silent false false (Returns (JObj [])).

(** The buffer of [k] holds [lines], perhaps with more behind them. *)
Definition grows (k : pykey) (lines : list string) (s : Server) : Prop :=
  exists new, process_output_buffers (manager s) !! k = Some (lines ++ new).


(** A world where the shell answers the line ["hi\n"] and falls silent. *)
Definition echo : World :=
  mkWorld "error" (fun _ => "[...]") "/srv" "/bin/bash" "7f3c" 1700000000
          (Returns (Proc 1)) (Returns tt) (Returns tt) (Line line_hi Silent)
          (Returns tt) Silent false false (Returns (JObj [])).

(* ===================================================================== *)
(** * Laws of the handler monad *)
(* ===================================================================== *)

Create HintDb py discriminated.

#[local] Hint Unfold
  update_env try_shim append_output del_running pump_read pump_reads
  kill_after_wait contains lookup extend_output with_terminal
  _execute_terminal_command del_terminal close_after_wait window lower_of
  add_newline check_path decode_message send_response send_error
  connect disconnect : py.

#[local] Hint Unfold
  handle_execute_command handle_start_long_running_command
  handle_get_process_output handle_kill_process handle_read_file
  handle_write_file handle_list_directory handle_create_directory
  handle_delete_file handle_rename_file handle_search_files
  handle_check_python_env handle_check_clojure_env handle_clojure_repl
  handle_create_terminal_session handle_list_terminal_sessions
  handle_switch_terminal_session handle_close_terminal_session
  handle_write_to_terminal handle_read_terminal_output
  handle_send_control_character handle_clear_terminal_output
  handle_execute_repl_command : py.

Lemma sent_app (l1 l2 : list Effect) : sent (l1 ++ l2) = sent l1 ++ sent l2.
Proof. unfold sent. apply omap_app. Qed.


Section Silent.
Context {A B : Type}.

Lemma silent_ret (a : A) : silent (ret a).
Proof. intros s. reflexivity. Qed.

Lemma silent_raise (e : PyExn) : silent (@raise A e).
Proof. intros s. reflexivity. Qed.

Lemma silent_hang : silent (@hang A).
Proof. intros s. reflexivity. Qed.

Lemma silent_gets (f : Server -> A) : silent (gets f).
Proof. intros s. reflexivity. Qed.

Lemma silent_modify (f : Server -> Server) : silent (modify f).
Proof. intros s. reflexivity. Qed.

Lemma silent_orelse (e : PyExn) (o : option A) : silent (orelse e o).
Proof. intros s. destruct o; reflexivity. Qed.

Lemma silent_os (o : Outcome A) : silent (os o).
Proof. intros s. destruct o; reflexivity. Qed.

Lemma silent_lift (r : Res A) : silent (lift r).
Proof. intros s. reflexivity. Qed.

Lemma silent_stdin (p : Process) (d : list byte) : silent (effect (StdinWrite p d)).
Proof. intros s. reflexivity. Qed.

Lemma silent_task (i : json) (p : Process) : silent (effect (CreateTask i p)).
Proof. intros s. reflexivity. Qed.

Lemma silent_print (x : string) : silent (effect (Print x)).
Proof. intros s. reflexivity. Qed.

Lemma silent_bind (m : M A) (f : A -> M B) :
  silent m -> (forall a, silent (f a)) -> silent (bind m f).
Proof.
  intros Hm Hf s. unfold bind. specialize (Hm s).
  destruct (m s) as [l s' [a|e|]]; cbn [log final res] in *; trivial.
  specialize (Hf a s'). destruct (f a s') as [l' s'' r]; cbn [log final res] in *.
  rewrite sent_app, Hm, Hf. reflexivity.
Qed.
End Silent.

Section Replies.
Context {A B : Type} (websocket : WebSocket) (message_id : string).

Lemma replies_send_response (result : json) :
  replies websocket message_id (send_response message_id result websocket).
Proof. intros s. cbn. eexists. split; [reflexivity|]. split; cbn; auto. Qed.

Lemma replies_send_error (code : Z) (text : string) :
  replies websocket message_id (send_error message_id code text websocket).
Proof. intros s. cbn. eexists. split; [reflexivity|]. split; cbn; auto. Qed.

Lemma replies_raise (e : PyExn) : replies websocket message_id (@raise A e).
Proof. intros s. reflexivity. Qed.

Lemma replies_hang : replies websocket message_id (@hang A).
Proof. intros s. reflexivity. Qed.

Lemma replies_bind (m : M A) (f : A -> M B) :
  silent m -> (forall a, replies websocket message_id (f a)) ->
  replies websocket message_id (bind m f).
Proof.
  intros Hm Hf s. unfold bind. specialize (Hm s).
  destruct (m s) as [l s' [a|e|]]; cbn [log final res] in *; trivial.
  specialize (Hf a s'). destruct (f a s') as [l' s'' r]; cbn [log final res] in *.
  rewrite sent_app, Hm. exact Hf.
Qed.

Lemma replies_try (body : M unit) (handler : PyExn -> M unit) :
  replies websocket message_id body ->
  (forall e, replies websocket message_id (handler e)) ->
  replies websocket message_id (try_except body handler).
Proof.
  intros Hb Hh s. unfold try_except. specialize (Hb s).
  destruct (body s) as [l s' [a|e|]]; cbn [log final res] in *; trivial.
  specialize (Hh e s'). destruct (handler e s') as [l' s'' r]; cbn [log final res] in *.
  rewrite sent_app, Hb. exact Hh.
Qed.
End Replies.

(** Walks through a computation, one constructor at a time. *)
Ltac silent_step :=
  lazymatch goal with
  | |- silent (bind _ _) => apply silent_bind; [| intros ?]
  | |- silent (ret _) => apply silent_ret
  | |- silent (raise _) => apply silent_raise
  | |- silent hang => apply silent_hang
  | |- silent (gets _) => apply silent_gets
  | |- silent (modify _) => apply silent_modify
  | |- silent (orelse _ _) => apply silent_orelse
  | |- silent (os _) => apply silent_os
  | |- silent (lift _) => apply silent_lift
  | |- silent (effect (StdinWrite _ _)) => apply silent_stdin
  | |- silent (effect (CreateTask _ _)) => apply silent_task
  | |- silent (effect (Print _)) => apply silent_print
  | |- silent (if ?b then _ else _) => destruct b
  | |- silent (match ?x with _ => _ end) => destruct x
  end.

Ltac replies_step :=
  lazymatch goal with
  | |- replies _ _ (bind _ _) => apply replies_bind; [repeat silent_step | intros ?]
  | |- replies _ _ (try_except _ _) => apply replies_try; [| intros ?]
  | |- replies _ _ (effect (Send _ (response_of _ _))) => apply replies_send_response
  | |- replies _ _ (effect (Send _ (error_of _ _ _))) => apply replies_send_error
  | |- replies _ _ (raise _) => apply replies_raise
  | |- replies _ _ hang => apply replies_hang
  | |- replies _ _ (if ?b then _ else _) => destruct b
  | |- replies _ _ (match ?x with _ => _ end) => destruct x
  end.

(** Splits a statement about every entry of a table into one goal for
    each handler. *)
Ltac each_handler :=
  repeat first [apply List.Forall_nil | apply List.Forall_cons]; cbn [snd].

Ltac open_handler :=
  intros; autounfold with py; unfold mbind, M_bind; cbv zeta.

Lemma start_disciplined : disciplined handle_start_long_running_command.
Proof. intros w i p ws. open_handler. repeat replies_step. Qed.

Lemma ALL_HANDLERS_eq :
  ALL_HANDLERS = METHOD_HANDLERS ++ CLOJURE_HANDLERS ++ TERMINAL_HANDLERS.
Proof. reflexivity. Qed.

Lemma dict_get_In {V} (k : string) (d : dict V) (v : V) :
  dict_get k d = Some v -> In (k, v) d.
Proof.
  induction d as [|[k' v'] d IH]; cbn; [discriminate|].
  destruct (String.eqb_spec k k') as [->|]; intros H.
  - left. congruence.
  - right. auto.
Qed.

Lemma all_disciplined : Forall (fun kv => disciplined (snd kv)) ALL_HANDLERS.
Proof.
  rewrite ALL_HANDLERS_eq.
  unfold METHOD_HANDLERS, CLOJURE_HANDLERS, TERMINAL_HANDLERS.
  each_handler; intros w i p ws; open_handler;
    repeat replies_step.
Qed.

(* ===================================================================== *)
(** * The dispatcher *)
(* ===================================================================== *)

Lemma validate_is_object (message_data : json) (message : Message.t) :
  Message_validate message_data = Some message -> exists kvs, message_data = JObj kvs.
Proof. destruct message_data; cbn; try discriminate. eauto. Qed.

Lemma decode_message_ok (message_data : json) (message : Message.t) :
  Message_validate message_data = Some message ->
  decode_message message_data = ret message.
Proof.
  intros H. destruct (validate_is_object _ _ H) as [kvs ->].
  unfold decode_message. rewrite H. reflexivity.
Qed.

Lemma bind_ret_l {A B} (a : A) (f : A -> M B) (s : Server) :
  bind (ret a) f s = f a s.
Proof. unfold bind, ret. destruct (f a s); reflexivity. Qed.

Lemma receive_decoded (handlers : dict Handler) (websocket : WebSocket)
    (message_data : json) (message : Message.t) (w : World) (s : Server) :
  Message_validate message_data = Some message ->
  receive handlers websocket (Json message_data) w s
  = try_except (dispatch handlers w message websocket)
      (fun _ => effect (Print ("Error processing message: " +:+ str_e w))) s.
Proof.
  intros Hv. unfold receive, try_except.
  rewrite (decode_message_ok _ _ Hv). unfold mbind, M_bind.
  rewrite bind_ret_l. reflexivity.
Qed.

Lemma registered_name_not_empty (handler : Handler) :
  dict_get "" ALL_HANDLERS <> Some handler.
Proof. rewrite ALL_HANDLERS_eq. cbn. discriminate. Qed.

Lemma method_given_registered (message : Message.t) (name : string) (handler : Handler) :
  Message.method message = Some name ->
  dict_get name ALL_HANDLERS = Some handler ->
  method_given message = Some name.
Proof.
  intros Hm Hh. unfold method_given. rewrite Hm.
  destruct (String.eqb_spec name "") as [->|]; [|reflexivity].
  exfalso. eapply registered_name_not_empty, Hh.
Qed.

Lemma handler_disciplined (name : string) (handler : Handler) :
  dict_get name ALL_HANDLERS = Some handler -> disciplined handler.
Proof.
  intros H. apply dict_get_In in H.
  pose proof all_disciplined as HA. rewrite List.Forall_forall in HA.
  apply (HA _ H).
Qed.

(** C1, as amended: a request whose method is registered is answered at
    most once. When its handler returns, exactly one Response or Error with
    the id of the request went out on the requesting channel; when an
    exception leaves the handler, nothing went out and the dispatcher
    prints the error and goes on; when the handler never resumes, nothing
    went out. *)
Theorem registered_request_reply :
  forall (message_data : json) (message : Message.t) (name : string)
         (handler : Handler) (w : World) (websocket : WebSocket) (s : Server),
    Message_validate message_data = Some message ->
    Message.type message = REQUEST ->
    Message.method message = Some name ->
    dict_get name ALL_HANDLERS = Some handler ->
    let h := handler w (Message.id message) (params_or_empty message) websocket s in
    let r := receive ALL_HANDLERS websocket (Json message_data) w s in
    match res h with
    | Ok _ =>
        (exists m, sent (log r) = [(websocket, m)] /\ is_reply (Message.id message) m)
        /\ log r = log h /\ res r = Ok tt
    | Raise _ =>
        sent (log r) = []
        /\ log r = log h ++ [Print ("Error processing message: " +:+ str_e w)]
        /\ res r = Ok tt
    | Hang => sent (log r) = [] /\ log r = log h /\ res r = Hang
    end.
Proof.
  intros message_data message name handler w websocket s Hv Ht Hm Hh h r.
  pose proof (handler_disciplined _ _ Hh w (Message.id message)
                (params_or_empty message) websocket s) as Hd.
  fold h in Hd.
  assert (Hr : r = try_except (handler w (Message.id message)
                                 (params_or_empty message) websocket)
                     (fun _ => effect (Print ("Error processing message: " +:+ str_e w))) s).
  { unfold r. rewrite (receive_decoded _ _ _ _ _ _ Hv).
    unfold try_except, dispatch.
    rewrite Ht, (method_given_registered _ _ _ Hm Hh), Hh. reflexivity. }
  rewrite Hr. unfold try_except. fold h.
  destruct h as [l s' [[]|e|]]; unfold effect; cbn [log final res] in *.
  - auto.
  - rewrite sent_app, Hd. auto.
  - auto.
Qed.

(** C1 fails as stated: the request names a registered method and is well
    formed, yet nothing is sent back. [processId] is a list, which cannot
    be hashed; the [TypeError] leaves [handle_get_process_output] before
    any reply and the loop only prints it. *)
Lemma registered_request_without_reply :
  let message_data := request "1" "getProcessOutput" [("processId", JArr [])] in
  let r := receive ALL_HANDLERS 7%nat (Json message_data) calm initial in
  Message_validate message_data
    = Some (Message.make REQUEST "1" (Some "getProcessOutput")
              (Some [("processId", JArr [])]) JNull None)
  /\ dict_get "getProcessOutput" ALL_HANDLERS = Some handle_get_process_output
  /\ sent (log r) = []
  /\ printed (log r) = ["Error processing message: error"].
Proof. repeat split. Qed.

(** C2, as amended: a request that names a method, by a non-empty name
    that is not registered, gets exactly one Error, with code 404, the
    message "Method '<name>' not found" and the id of the request; nothing
    else is done and the state is untouched. *)
Theorem unregistered_method_404 :
  forall (handlers : dict Handler) (message_data : json) (message : Message.t)
         (name : string) (w : World) (websocket : WebSocket) (s : Server),
    Message_validate message_data = Some message ->
    Message.type message = REQUEST ->
    Message.method message = Some name ->
    name <> "" ->
    dict_get name handlers = None ->
    receive handlers websocket (Json message_data) w s
    = mkRun [Send websocket
               (error_of (Message.id message) 404
                  ("Method '" +:+ name +:+ "' not found"))] s (Ok tt).
Proof.
  intros handlers message_data message name w websocket s Hv Ht Hm Hne Hh.
  rewrite (receive_decoded _ _ _ _ _ _ Hv).
  unfold try_except, dispatch, method_given. rewrite Ht, Hm.
  destruct (String.eqb_spec name "") as [->|_]; [congruence|].
  rewrite Hh. reflexivity.
Qed.

Lemma unregistered_method_404_witness :
  receive ALL_HANDLERS 7%nat (Json (request "1" "writeInput" [])) calm initial
  = mkRun [Send 7%nat (error_of "1" 404 "Method 'writeInput' not found")]
      initial (Ok tt).
Proof.
  apply (unregistered_method_404 ALL_HANDLERS (request "1" "writeInput" [])
           (Message.make REQUEST "1" (Some "writeInput") (Some []) JNull None)
           "writeInput" calm 7%nat initial);
    [reflexivity | reflexivity | reflexivity | discriminate | reflexivity].
Defined.

(** C2 fails as stated: the empty method name is not registered, and a
    request that carries it is passed over without any Error. *)
Lemma empty_method_gets_no_error :
  let message_data := request "1" "" [] in
  Message_validate message_data
    = Some (Message.make REQUEST "1" (Some "") (Some []) JNull None)
  /\ dict_get "" ALL_HANDLERS = None
  /\ receive ALL_HANDLERS 7%nat (Json message_data) calm initial
     = mkRun [] initial (Ok tt).
Proof. repeat split. Qed.

(** C7, as amended: decoding checks the types of the fields and nothing
    else. A frame that is not JSON is passed over; a frame that is JSON
    but not a [Message] costs one line on stderr; in both cases nothing is
    sent, the state is untouched and the loop goes on. Any frame that
    passes the field checks is dispatched, whatever combination of
    [method], [params], [result] and [error] it carries and whether or
    not its id is empty. *)
Theorem frame_decoding :
  forall (handlers : dict Handler) (websocket : WebSocket) (frame : Frame)
         (w : World) (s : Server),
    let r := receive handlers websocket frame w s in
    match frame with
    | InvalidJSON => r = mkRun [] s (Ok tt)
    | Json message_data =>
        match Message_validate message_data with
        | None => r = mkRun [Print ("Error processing message: " +:+ str_e w)] s (Ok tt)
        | Some message =>
            r = try_except (dispatch handlers w message websocket)
                  (fun _ => effect (Print ("Error processing message: " +:+ str_e w))) s
        end
    end.
Proof.
  intros handlers websocket frame w s r. subst r.
  destruct frame as [|message_data]; [reflexivity|].
  destruct (Message_validate message_data) as [message|] eqn:Hv.
  - apply receive_decoded, Hv.
  - unfold receive, decode_message.
    destruct message_data; try reflexivity.
    rewrite Hv. reflexivity.
Qed.

(** C7 fails as stated: the frame is a Request with an empty id that also
    carries a result and an error, so it breaks the envelope invariant on
    three counts; it is decoded all the same, dispatched, and answered. *)
Lemma misshapen_frame_is_dispatched :
  let kvs := [("type", JStr "request"); ("id", JStr "");
              ("method", JStr "getProcessOutput");
              ("params", JObj [("processId", JStr "p")]);
              ("result", JInt 1); ("error", JObj [("code", JInt 0)])] in
  spec_variant_invariant kvs = false
  /\ receive ALL_HANDLERS 7%nat (Json (JObj kvs)) calm initial
     = mkRun [Send 7%nat (error_of "" 404 "Process p not found")] initial (Ok tt).
Proof. repeat split. Qed.

(* ===================================================================== *)
(** * Facts that survive every computation *)
(* ===================================================================== *)

Section Keeps.
Context {A B : Type} (P : Server -> Prop).

Lemma keeps_ret (a : A) : keeps P (ret a).
Proof. intros s H. exact H. Qed.

Lemma keeps_raise (e : PyExn) : keeps P (@raise A e).
Proof. intros s H. exact H. Qed.

Lemma keeps_hang : keeps P (@hang A).
Proof. intros s H. exact H. Qed.

Lemma keeps_gets (f : Server -> A) : keeps P (gets f).
Proof. intros s H. exact H. Qed.

Lemma keeps_orelse (e : PyExn) (o : option A) : keeps P (orelse e o).
Proof. intros s H. destruct o; exact H. Qed.

Lemma keeps_os (o : Outcome A) : keeps P (os o).
Proof. intros s H. destruct o; exact H. Qed.

Lemma keeps_lift (r : Res A) : keeps P (lift r).
Proof. intros s H. exact H. Qed.

Lemma keeps_effect (e : Effect) : keeps P (effect e).
Proof. intros s H. exact H. Qed.

Lemma keeps_modify (f : Server -> Server) :
  (forall s, P s -> P (f s)) -> keeps P (modify f).
Proof. intros Hf s H. apply Hf, H. Qed.

Lemma keeps_bind (m : M A) (f : A -> M B) :
  keeps P m -> (forall a, keeps P (f a)) -> keeps P (bind m f).
Proof.
  intros Hm Hf s H. unfold bind. specialize (Hm s H).
  destruct (m s) as [l s' [a|e|]]; cbn [log final res] in *; trivial.
  specialize (Hf a s' Hm). destruct (f a s'); exact Hf.
Qed.
End Keeps.

Lemma keeps_try (P : Server -> Prop) (body : M unit) (handler : PyExn -> M unit) :
  keeps P body -> (forall e, keeps P (handler e)) -> keeps P (try_except body handler).
Proof.
  intros Hb Hh s H. unfold try_except. specialize (Hb s H).
  destruct (body s) as [l s' [a|e|]]; cbn [log final res] in *; trivial.
  specialize (Hh e s' Hb). destruct (handler e s'); exact Hh.
Qed.

(** Walks through a computation; [tac] settles the state updates. *)
Ltac keeps_step tac :=
  lazymatch goal with
  | |- keeps _ (bind _ _) => apply keeps_bind; [| intros ?]
  | |- keeps _ (try_except _ _) => apply keeps_try; [| intros ?]
  | |- keeps _ (ret _) => apply keeps_ret
  | |- keeps _ (raise _) => apply keeps_raise
  | |- keeps _ hang => apply keeps_hang
  | |- keeps _ (gets _) => apply keeps_gets
  | |- keeps _ (orelse _ _) => apply keeps_orelse
  | |- keeps _ (os _) => apply keeps_os
  | |- keeps _ (lift _) => apply keeps_lift
  | |- keeps _ (effect _) => apply keeps_effect
  | |- keeps _ (modify _) => apply keeps_modify; tac
  | |- keeps _ (if ?b then _ else _) => destruct b
  | |- keeps _ (match ?x with _ => _ end) => destruct x
  end.

(** ** The output buffers only grow in number *)

Lemma buffered_insert (k k' : pykey) (v : list string) (s : Server) :
  buffered k s -> buffered k (set_manager (set_buffers <[k' := v]>) s).
Proof.
  unfold buffered. cbn. intros H.
  destruct (decide (k' = k)) as [->|Hne].
  - rewrite lookup_insert_eq. eauto.
  - rewrite lookup_insert_ne; assumption.
Qed.

Ltac buffered_update :=
  intros ? ?;
  first [ apply buffered_insert; assumption | assumption ].

Ltac keeps_buffered := repeat keeps_step buffered_update.

Lemma all_keep_buffered (k : pykey) :
  Forall (fun kv => forall w i p ws, keeps (buffered k) (snd kv w i p ws)) ALL_HANDLERS.
Proof.
  rewrite ALL_HANDLERS_eq.
  unfold METHOD_HANDLERS, CLOJURE_HANDLERS, TERMINAL_HANDLERS.
  each_handler; intros w i p ws; open_handler; keeps_buffered.
Qed.

Lemma pump_turn_keeps_buffered (k : pykey) (process_id : json) (p : Poll) :
  keeps (buffered k) (pump_turn process_id p).
Proof. unfold pump_turn. open_handler. keeps_buffered. Qed.

Lemma receive_keeps (P : Server -> Prop) (handlers : dict Handler) :
  Forall (fun kv => forall w i p ws, keeps P (snd kv w i p ws)) handlers ->
  forall ws frame w, keeps P (receive handlers ws frame w).
Proof.
  intros HA ws frame w. rewrite List.Forall_forall in HA.
  unfold receive. destruct frame as [|message_data]; [apply keeps_ret|].
  apply keeps_try; [|intros e; apply keeps_effect].
  unfold mbind, M_bind. apply keeps_bind.
  - unfold decode_message. destruct message_data;
      first [apply keeps_raise | apply keeps_orelse].
  - intros message. unfold dispatch.
    destruct (Message.type message); try apply keeps_ret.
    destruct (method_given message) as [name|]; [|apply keeps_ret].
    destruct (dict_get name handlers) as [handler|] eqn:E.
    + apply dict_get_In in E. apply (HA _ E).
    + apply keeps_effect.
Qed.

Lemma turn_keeps (P : Server -> Prop) (handlers : dict Handler) :
  Forall (fun kv => forall w i p ws, keeps P (snd kv w i p ws)) handlers ->
  (forall process_id p, keeps P (pump_turn process_id p)) ->
  forall e s, P s -> P (final (turn handlers e s)).
Proof.
  intros HA HP e s H. destruct e as [ws frame w|process_id poll]; cbn.
  - apply (receive_keeps P handlers HA), H.
  - specialize (HP process_id poll s H).
    destruct (pump_turn process_id poll s); exact HP.
Qed.

Lemma run_keeps (P : Server -> Prop) (handlers : dict Handler) :
  Forall (fun kv => forall w i p ws, keeps P (snd kv w i p ws)) handlers ->
  (forall process_id p, keeps P (pump_turn process_id p)) ->
  forall events s, P s -> P (run handlers events s).
Proof.
  intros HA HP events. induction events as [|e events IH]; intros s H; cbn.
  - exact H.
  - apply IH, (turn_keeps P handlers HA HP), H.
Qed.

Lemma run_keeps_buffered (k : pykey) (events : list Event) (s : Server) :
  buffered k s -> buffered k (run ALL_HANDLERS events s).
Proof.
  apply run_keeps.
  - apply all_keep_buffered.
  - intros. apply pump_turn_keeps_buffered.
Qed.

(* ===================================================================== *)
(** * The process supervisor *)
(* ===================================================================== *)

Ltac run_monad :=
  cbv beta iota zeta delta
    [mbind M_bind bind try_except ret raise hang gets modify effect orelse os
     lift].

Lemma start_success (w : World) (message_id : string) (params : dict json)
    (websocket : WebSocket) (s : Server) :
  let r := handle_start_long_running_command w message_id params websocket s in
  succeeded websocket r ->
  exists k process,
    hash (get params "processId" (JStr message_id)) = Some k
    /\ process_output_buffers (manager (final r)) !! k = Some []
    /\ running_processes (manager (final r)) !! k = Some process.
Proof.
  intros r [m [Hs Ht]]. subst r. revert Hs.
  unfold handle_start_long_running_command, update_env, send_response, send_error.
  destruct (update_error _); run_monad; [discriminate|].
  destruct (spawn w) as [process| |]; run_monad; intros Hs.
  - destruct (hash (get params "processId" (JStr message_id))) as [k|];
      run_monad; cbn [sent omap list_omap] in Hs |- *.
    + exists k, process. split; [reflexivity|].
      split; apply lookup_insert_eq.
    + injection Hs as <-. discriminate.
  - injection Hs as <-. discriminate.
  - discriminate.
Qed.

Lemma drain_run (process_id : json) (k : pykey) (lines : list string)
    (w : World) (message_id : string) (websocket : WebSocket) (s : Server) :
  hash process_id = Some k ->
  process_output_buffers (manager s) !! k = Some lines ->
  drain process_id w message_id websocket s
  = mkRun [Send websocket
             (response_of message_id
                (drained lines
                   (bool_decide (is_Some (running_processes (manager s) !! k)))))]
      (set_manager (set_buffers <[k := []]>) s) (Ok tt).
Proof.
  intros Hh Hb. unfold drain, handle_get_process_output, send_response.
  change (get [("processId", process_id)] "processId" (JStr "")) with process_id.
  run_monad. rewrite Hh. run_monad. rewrite Hb. reflexivity.
Qed.

Lemma drain_missing (process_id : json) (k : pykey)
    (w : World) (message_id : string) (websocket : WebSocket) (s : Server) :
  hash process_id = Some k ->
  process_output_buffers (manager s) !! k = None ->
  drain process_id w message_id websocket s
  = mkRun [Send websocket
             (error_of message_id 404
                ("Process " +:+ format w process_id +:+ " not found"))]
      s (Ok tt).
Proof.
  intros Hh Hb. unfold drain, handle_get_process_output, send_error.
  change (get [("processId", process_id)] "processId" (JStr "")) with process_id.
  run_monad. rewrite Hh. run_monad. rewrite Hb. reflexivity.
Qed.


(** A turn of the pump that goes through appends what it read. *)
Lemma pump_read_ok (process_id : json) (k : pykey) (r : Read) (prefix : string)
    (s : Server) :
  hash process_id = Some k ->
  buffered k s ->
  res (pump_read process_id r prefix s) = Ok tt ->
  exists lines,
    process_output_buffers (manager s) !! k = Some lines
    /\ final (pump_read process_id r prefix s)
       = match read_line r prefix with
         | [] => s
         | new => set_manager (set_buffers <[k := lines ++ new]>) s
         end.
Proof.
  intros Hh [lines Hb] Hr. exists lines. split; [exact Hb|].
  revert Hr. unfold pump_read, read_line, append_output.
  destruct r as [|[|b bs]|]; run_monad; try reflexivity; try discriminate.
  destruct (decode (b :: bs)) as [line|]; run_monad; [|discriminate].
  rewrite Hh. run_monad. rewrite Hb. reflexivity.
Qed.





(** A read of the pump sends nothing, leaves the live set alone and comes
    back. *)
Lemma pump_read_quiet (process_id : json) (r : Read) (prefix : string) (s : Server) :
  let x := pump_read process_id r prefix s in
  log x = []
  /\ running_processes (manager (final x)) = running_processes (manager s)
  /\ res x <> Hang.
Proof.
  unfold pump_read, append_output. destruct r as [|[|b bs]|]; run_monad;
    try (repeat split; discriminate).
  destruct (decode (b :: bs)) as [line|]; run_monad;
    [|repeat split; discriminate].
  destruct (hash process_id) as [k|]; run_monad; [|repeat split; discriminate].
  destruct (process_output_buffers (manager s) !! k) as [lines|]; run_monad;
    repeat split; discriminate.
Qed.





(** ** Nothing removes a buffer *)

Ltac same_buffers_update := intros ? ?; assumption.

Lemma kill_keeps_buffers (B : gmap pykey (list string)) (w : World)
    (message_id : string) (params : dict json) (websocket : WebSocket) :
  keeps (fun s => process_output_buffers (manager s) = B)
        (handle_kill_process w message_id params websocket).
Proof. open_handler. repeat keeps_step same_buffers_update. Qed.

(** C10: once a start has succeeded for a key, the key keeps its output
    buffer through everything that happens afterwards. A drain answers with
    a Response, never with NotFound, and leaves the key with an empty
    buffer; a kill leaves the buffers as they are; the pump that sees the
    process exit leaves the key its buffer. *)
Theorem buffer_outlives_process :
  forall (w0 : World) (message_id0 : string) (params0 : dict json)
         (websocket0 : WebSocket) (s0 : Server) (events : list Event),
    let r0 := handle_start_long_running_command w0 message_id0 params0 websocket0 s0 in
    let process_id := get params0 "processId" (JStr message_id0) in
    let s := run ALL_HANDLERS events (final r0) in
    succeeded websocket0 r0 ->
    exists k,
      hash process_id = Some k
      /\ buffered k s
      /\ (forall w message_id websocket,
            let d := drain process_id w message_id websocket s in
            (exists m, sent (log d) = [(websocket, m)] /\ Message.type m = RESPONSE)
            /\ process_output_buffers (manager (final d)) !! k = Some [])
      /\ (forall w message_id websocket,
            process_output_buffers
              (manager (final (handle_kill_process w message_id
                                 [("processId", process_id)] websocket s)))
            = process_output_buffers (manager s))
      /\ (forall poll, buffered k (final (pump_turn process_id poll s))).
Proof.
  intros w0 message_id0 params0 websocket0 s0 events r0 process_id s Hs.
  destruct (start_success _ _ _ _ _ Hs) as (k & process & Hh & Hb0 & _).
  fold r0 in Hb0. fold process_id in Hh.
  assert (Hb : buffered k s).
  { apply run_keeps_buffered. unfold buffered. rewrite Hb0. eauto. }
  exists k. split; [exact Hh|]. split; [exact Hb|]. split; [|split].
  - intros w message_id websocket d. destruct Hb as [lines Hb].
    unfold d. rewrite (drain_run _ _ _ _ _ _ _ Hh Hb). cbn [log final].
    split.
    + eexists. split; reflexivity.
    + cbn. apply lookup_insert_eq.
  - intros w message_id websocket.
    apply (kill_keeps_buffers _ w message_id _ websocket s). reflexivity.
  - intros poll. apply pump_turn_keeps_buffered, Hb.
Qed.

(** ** The pump and bytes that are not text *)

Lemma decode_empty : decode [] = Some "".
Proof. reflexivity. Qed.

Lemma pump_read_undecodable (process_id : json) (bs : list byte) (prefix : string)
    (s : Server) :
  decode bs = None ->
  pump_read process_id (Bytes bs) prefix s = mkRun [] s (Raise UnicodeDecodeError).
Proof.
  intros Hd. unfold pump_read. destruct bs as [|b bs]; [discriminate|].
  rewrite Hd. reflexivity.
Qed.

(** C6, as amended: the pump catches the time-out of its bounded reads and
    nothing else. In a turn that does not see the process exit, a line
    that is not valid UTF-8 raises [UnicodeDecodeError] out of the loop,
    whatever the other stream delivers in that turn: the task ends there
    whatever the process does next, nothing is sent and no line is
    recorded for the failure. With the bad line on stdout the state is as
    it was. With the bad line on stderr the state is as the read of
    stdout in the same turn left it: as it was when that read timed out
    or found the end of the stream, with the stdout line appended to the
    buffer when that read gave a good line; and when the read of stdout
    itself fails the task has died of that before. In every case the live
    set is as it was. *)
Theorem pump_dies_of_undecodable_line :
  forall (process_id : json) (process : Process) (websocket : WebSocket)
         (p : Poll) (polls : list Poll) (bs : list byte) (s : Server),
    stdout_at_eof p && stderr_at_eof p = false \/ returncode p = None ->
    decode bs = None ->
    let r := collect_process_output process_id process websocket (p :: polls) s in
    (stdout_line p = Bytes bs -> r = mkRun [] s (Raise UnicodeDecodeError))
    /\ (stderr_line p = Bytes bs ->
        match stdout_line p with
        | Timeout | Bytes [] => r = mkRun [] s (Raise UnicodeDecodeError)
        | Bytes out =>
            match decode out with
            | Some line =>
                forall k lines,
                  hash process_id = Some k ->
                  process_output_buffers (manager s) !! k = Some lines ->
                  r = mkRun []
                        (set_manager (set_buffers <[k := lines ++ [rstrip line]]>) s)
                        (Raise UnicodeDecodeError)
            | None => r = mkRun [] s (Raise UnicodeDecodeError)
            end
        | ReadError => r = mkRun [] s (Raise ValueError)
        end)
    /\ ((stdout_line p = Bytes bs \/ stderr_line p = Bytes bs) ->
        (exists e, res r = Raise e)
        /\ log r = []
        /\ running_processes (manager (final r)) = running_processes (manager s)).
Proof.
  intros process_id process websocket p polls bs s Hexit Hd r.
  assert (Ht : pump_turn process_id p s = pump_reads process_id p s).
  { unfold pump_turn. destruct Hexit as [->| ->]; [reflexivity|].
    destruct (stdout_at_eof p && stderr_at_eof p); reflexivity. }
  assert (Hr : forall l s' e,
             pump_reads process_id p s = mkRun l s' (Raise e) ->
             r = mkRun l s' (Raise e)).
  { intros l s' e H. unfold r. cbn [collect_process_output].
    unfold mbind, M_bind, bind. rewrite Ht, H. reflexivity. }
  assert (H1 : stdout_line p = Bytes bs -> r = mkRun [] s (Raise UnicodeDecodeError)).
  { intros Ho. apply Hr. unfold pump_reads, mbind, M_bind, bind. rewrite Ho.
    rewrite pump_read_undecodable by exact Hd. reflexivity. }
  assert (H2 : stderr_line p = Bytes bs ->
               match stdout_line p with
               | Timeout | Bytes [] => r = mkRun [] s (Raise UnicodeDecodeError)
               | Bytes out =>
                   match decode out with
                   | Some line =>
                       forall k lines,
                         hash process_id = Some k ->
                         process_output_buffers (manager s) !! k = Some lines ->
                         r = mkRun []
                               (set_manager
                                  (set_buffers <[k := lines ++ [rstrip line]]>) s)
                               (Raise UnicodeDecodeError)
                   | None => r = mkRun [] s (Raise UnicodeDecodeError)
                   end
               | ReadError => r = mkRun [] s (Raise ValueError)
               end).
  { intros He. destruct (stdout_line p) as [|[|b out]|] eqn:Ho.
    - apply Hr. unfold pump_reads, mbind, M_bind, bind. rewrite Ho, He.
      change (pump_read process_id Timeout "" s) with (mkRun [] s (Ok tt)).
      cbv iota. rewrite pump_read_undecodable by exact Hd. reflexivity.
    - apply Hr. unfold pump_reads, mbind, M_bind, bind. rewrite Ho, He.
      change (pump_read process_id (Bytes []) "" s) with (mkRun [] s (Ok tt)).
      cbv iota. rewrite pump_read_undecodable by exact Hd. reflexivity.
    - destruct (decode (b :: out)) as [line|] eqn:Hl.
      + intros k lines Hh Hb. apply Hr.
        unfold pump_reads, mbind, M_bind, bind. rewrite Ho, He.
        assert (Hg : pump_read process_id (Bytes (b :: out)) "" s
                     = mkRun [] (set_manager
                                   (set_buffers <[k := lines ++ [rstrip line]]>) s)
                         (Ok tt)).
        { unfold pump_read, append_output. rewrite Hl. run_monad.
          rewrite Hh. run_monad. rewrite Hb. reflexivity. }
        rewrite Hg. cbv iota.
        rewrite pump_read_undecodable by exact Hd. reflexivity.
      + apply Hr. unfold pump_reads, mbind, M_bind, bind. rewrite Ho.
        rewrite pump_read_undecodable by exact Hl. reflexivity.
    - apply Hr. unfold pump_reads, mbind, M_bind, bind. rewrite Ho. reflexivity. }
  split; [exact H1|]. split; [exact H2|].
  intros [Ho|He].
  - rewrite (H1 Ho). cbn [res log final]. split; [eauto|]. split; reflexivity.
  - clear H1 H2. unfold r. cbn [collect_process_output].
    unfold mbind, M_bind, bind. rewrite Ht.
    unfold pump_reads, mbind, M_bind, bind. rewrite He.
    destruct (pump_read_quiet process_id (stdout_line p) "" s) as (Hl & Hlive & Hh).
    destruct (pump_read process_id (stdout_line p) "" s) as [l s' [[]|e|]];
      cbn [log final res] in *; subst l.
    + rewrite pump_read_undecodable by exact Hd. cbn [res log final].
      split; [eauto|]. split; [reflexivity | exact Hlive].
    + split; [eauto|]. split; [reflexivity | exact Hlive].
    + congruence.
Qed.

Lemma pump_dies_of_undecodable_line_witness :
  let s := final (handle_start_long_running_command calm "p1" [] 7%nat initial) in
  collect_process_output (JStr "p1") (Proc 1) 7%nat
    [mkPoll false false None (Bytes line_ok) (Bytes line_bad);
     mkPoll false false None (Bytes line_hi) Timeout] s
  = mkRun [] (set_manager (set_buffers <[KStr "p1" := [] ++ ["ok"]]>) s)
      (Raise UnicodeDecodeError).
Proof.
  intros s.
  exact (proj1 (proj2 (pump_dies_of_undecodable_line (JStr "p1") (Proc 1) 7%nat
                         (mkPoll false false None (Bytes line_ok) (Bytes line_bad))
                         [mkPoll false false None (Bytes line_hi) Timeout]
                         line_bad s (or_introl eq_refl) eq_refl))
           eq_refl (KStr "p1") [] eq_refl eq_refl).
Defined.

(** C6 fails as stated: the process prints a line that is not UTF-8 and
    then a proper one. The pump task ends with the exception on the first;
    the buffer holds no line for the failure, the second line is never
    pumped, and the key remains in the live set, so that a drain finds
    nothing and still reports the process as running. *)
Lemma pump_crashes_on_bad_bytes :
  let s1 := final (handle_start_long_running_command calm "p1" [] 7%nat initial) in
  let polls := [mkPoll false false None (Bytes line_bad) Timeout;
                mkPoll true true (Some 0) (Bytes line_ok) Timeout] in
  let crashed := collect_process_output (JStr "p1") (Proc 1) 7%nat polls s1 in
  res crashed = Raise UnicodeDecodeError
  /\ process_output_buffers (manager (final crashed)) !! KStr "p1" = Some []
  /\ sent (log (drain (JStr "p1") calm "2" 7%nat (final crashed)))
     = [(7%nat, response_of "2" (drained [] true))].
Proof. vm_compute. repeat split. Qed.

(** ** Writing to a process *)

Section Writes.
Context {A B : Type}.










End Writes.








(* ===================================================================== *)
(** * One channel, one handler at a time *)
(* ===================================================================== *)

Lemma serve_cons (handlers : dict Handler) (websocket : WebSocket)
    (frame : Frame) (w : World) (frames : list (Frame * World)) (s : Server) :
  serve handlers websocket ((frame, w) :: frames) s
  = match receive handlers websocket frame w s with
    | mkRun l s' (Ok _) =>
        match serve handlers websocket frames s' with
        | mkRun l' s'' r => mkRun (l ++ l') s'' r
        end
    | mkRun l s' (Raise e) => mkRun l s' (Raise e)
    | mkRun l s' Hang => mkRun l s' Hang
    end.
Proof. reflexivity. Qed.

Lemma receive_undecoded (handlers : dict Handler) (websocket : WebSocket)
    (message_data : json) (w : World) (s : Server) :
  Message_validate message_data = None ->
  receive handlers websocket (Json message_data) w s
  = mkRun [Print ("Error processing message: " +:+ str_e w)] s (Ok tt).
Proof.
  intros Hv. unfold receive, decode_message.
  destruct message_data; try reflexivity.
  rewrite Hv. reflexivity.
Qed.

(** What one frame puts on the wire: nothing, or one reply that carries
    the id of the frame. *)
Lemma receive_reply (websocket : WebSocket) (frame : Frame) (w : World) (s : Server) :
  let out := sent (log (receive ALL_HANDLERS websocket frame w s)) in
  out = []
  \/ exists i m, frame_id frame = Some i /\ out = [(websocket, m)] /\ is_reply i m.
Proof.
  cbv zeta. destruct frame as [|message_data]; [left; reflexivity|].
  unfold frame_id.
  destruct (Message_validate message_data) as [message|] eqn:Hv;
    [|rewrite (receive_undecoded _ _ _ _ _ Hv); left; reflexivity].
  rewrite (receive_decoded _ _ _ _ _ _ Hv). unfold try_except.
  assert (Hd : replies websocket (Message.id message)
                 (dispatch ALL_HANDLERS w message websocket)
               \/ dispatch ALL_HANDLERS w message websocket = ret tt).
  { unfold dispatch. destruct (Message.type message); auto.
    destruct (method_given message) as [name|]; auto.
    destruct (dict_get name ALL_HANDLERS) as [handler|] eqn:E.
    - left. apply (handler_disciplined _ _ E).
    - left. apply replies_send_error. }
  destruct Hd as [Hd| ->]; [|left; reflexivity].
  specialize (Hd s).
  destruct (dispatch ALL_HANDLERS w message websocket s) as [l s' [[]|e|]];
    cbn [log res] in *.
  - destruct Hd as (x & Hx & Hi). right. exists (Message.id message), x. auto.
  - unfold effect. cbn [log]. rewrite sent_app, Hd. left. reflexivity.
  - left. exact Hd.
Qed.



(* ===================================================================== *)
(** * Reading the history of a terminal *)
(* ===================================================================== *)

(** C9, the code at [lineCount = 0]: the window taken from the end is the
    whole history, because [history[-0:]] is [history[0:]]. *)
Theorem window_of_zero_lines :
  forall (history : list string) (s : Server),
    window (JInt 0) (JBool true) history s = mkRun [] s (Ok history).
Proof.
  intros history s. unfold window. destruct history as [|x history]; [reflexivity|].
  cbn [truthy as_index]. unfold mbind, M_bind, bind, orelse, ret.
  change (- 0) with 0. unfold slice_from. cbn [Z.ltb Z.compare].
  rewrite Z.min_l by lia. reflexivity.
Qed.

Example read_zero_lines :
  handle_read_terminal_output calm "1" [("lineCount", JInt 0)] 7%nat abc_server
  = mkRun [Send 7%nat
             (response_of "1"
                (JObj [("output", lines_json ["a"; "b"; "c"]);
                       ("lineCount", JInt 3); ("totalLines", JInt 3)]))]
      abc_server (Ok tt).
Proof. reflexivity. Qed.

(** For a positive count the window is the last [min lineCount length]
    lines, and reading leaves the state alone. *)
Lemma window_of_positive_lines (n : Z) (history : list string) (s : Server) :
  0 < n ->
  window (JInt n) (JBool true) history s
  = mkRun [] s
      (Ok (drop (length history - Z.to_nat (Z.min n (Z.of_nat (length history))))
             history)).
Proof.
  intros Hn. unfold window. destruct history as [|x history].
  - reflexivity.
  - cbn [truthy as_index]. unfold mbind, M_bind, bind, orelse, ret.
    unfold slice_from. set (l := x :: history).
    destruct (Z.ltb_spec (- n) 0) as [_|]; [|lia].
    do 3 f_equal. lia.
Qed.

(* ===================================================================== *)
(** * The current-session pointer *)
(* ===================================================================== *)

Lemma dict_get_keys {V} (k : string) (d : dict V) (v : V) :
  dict_get k d = Some v -> In k (dict_keys d).
Proof.
  induction d as [|[k' v'] d IH]; cbn; [discriminate|].
  destruct (String.eqb_spec k k') as [->|]; intros H; auto.
Qed.

Lemma dict_keys_set {V} (k k' : string) (v : V) (d : dict V) :
  In k' (dict_keys d) -> In k' (dict_keys (dict_set k v d)).
Proof.
  induction d as [|[k0 v0] d IH]; cbn; [tauto|].
  destruct (String.eqb_spec k k0) as [->|]; cbn; tauto.
Qed.

Lemma dict_keys_set_new {V} (k : string) (v : V) (d : dict V) :
  In k (dict_keys (dict_set k v d)).
Proof.
  induction d as [|[k0 v0] d IH]; cbn; [auto|].
  destruct (String.eqb_spec k k0) as [->|]; cbn; auto.
Qed.

Lemma dict_keys_del {V} (k k' : string) (d : dict V) :
  In k' (dict_keys d) -> k' <> k -> In k' (dict_keys (dict_del k d)).
Proof.
  induction d as [|[k0 v0] d IH]; cbn; [tauto|].
  destruct (String.eqb_spec k k0) as [->|]; cbn; intros [->|H] Hne; auto; congruence.
Qed.

Lemma first_key_in (d : dict Session.t) (k : string) :
  first_key d = JStr k -> In k (dict_keys d).
Proof. destruct d as [|[k0 t] d]; cbn; [discriminate|]. intros [= ->]. auto. Qed.

Lemma hash_str (v : json) (k : string) : hash v = Some (KStr k) -> v = JStr k.
Proof. destruct v as [|[]| | | |]; cbn; congruence. Qed.

Lemma pointer_ok_manager (f : ConnectionManager -> ConnectionManager) (s : Server) :
  pointer_ok s -> pointer_ok (set_manager f s).
Proof. exact (fun H => H). Qed.

Lemma pointer_ok_grow (f : dict Session.t -> dict Session.t) (s : Server) :
  (forall k, In k (dict_keys (_active_terminals s)) ->
             In k (dict_keys (f (_active_terminals s)))) ->
  pointer_ok s -> pointer_ok (set_terminals f s).
Proof.
  intros Hf [Hn|(k & Hk & Hin)]; [left; exact Hn|].
  right. exists k. split; [exact Hk|]. apply Hf, Hin.
Qed.

Lemma pointer_ok_point (k : string) (s : Server) :
  In k (dict_keys (_active_terminals s)) -> pointer_ok (set_current (JStr k) s).
Proof. intros H. right. exists k. split; [reflexivity | exact H]. Qed.

Ltac fields :=
  cbn [_active_terminals _current_terminal_id manager set_terminals set_current
       set_manager].

Ltac pointer_update :=
  intros ? ?;
  first
    [ assumption
    | apply pointer_ok_manager; assumption
    | apply pointer_ok_grow; [intros ? ?| assumption];
      first [ apply dict_keys_set; assumption
            | match goal with
              | |- context [match ?x with _ => _ end] =>
                  destruct x; [apply dict_keys_set|]; assumption
              end ] ].

Ltac keeps_pointer := repeat keeps_step pointer_update.

(** The checks of [with_terminal] hand the body an id that is a key. *)
Lemma with_terminal_keeps (P : Server -> Prop) (w : World) (terminal_id : json)
    (message_id : string) (websocket : WebSocket) (body : M unit) :
  (forall k t s, terminal_id = JStr k ->
                 dict_get k (_active_terminals s) = Some t ->
                 P s -> P (final (body s))) ->
  keeps P (with_terminal w terminal_id message_id websocket body).
Proof.
  intros Hb s H. unfold with_terminal, contains, send_error.
  destruct (truthy terminal_id); cbn [negb]; [|exact H].
  run_monad. destruct (hash terminal_id) as [[| |k]|] eqn:Hh; run_monad;
    try exact H.
  destruct (dict_get k (_active_terminals s)) as [t|] eqn:E.
  - rewrite bool_decide_eq_true_2 by eauto. cbn [negb].
    apply hash_str in Hh. specialize (Hb k t s Hh E H).
    destruct (body s) as [l s' [[]|e|]]; exact Hb.
  - rewrite bool_decide_eq_false_2 by (intros [? ?]; discriminate). exact H.
Qed.

(** After the wait of a close, in whatever state the other tasks have
    left: the session goes and the pointer follows. *)
Lemma close_after_wait_keeps (w : World) (terminal_id : json) (message_id : string)
    (websocket : WebSocket) :
  keeps pointer_ok (close_after_wait w terminal_id message_id websocket).
Proof.
  intros s H. unfold close_after_wait, del_terminal, lookup, send_response.
  destruct terminal_id as [|b|z|k|l|kvs]; cbn [hash]; run_monad; try exact H.
  destruct (dict_get k (_active_terminals s)) as [t|] eqn:E; run_monad;
    [|exact H].
  fields.
  destruct (py_eq (JStr k) (_current_terminal_id s)) eqn:Heq; run_monad; fields.
  - destruct (dict_del k (_active_terminals s)) as [|[k0 t0] d] eqn:Ed;
      run_monad; fields.
    + left. reflexivity.
    + right. exists k0. cbn. rewrite Ed. cbn. auto.
  - destruct H as [Hn|(k' & Hk & Hin)]; [left; exact Hn|].
    right. exists k'. split; [exact Hk|]. cbn.
    apply dict_keys_del; [exact Hin|].
    intros ->. rewrite Hk in Heq. cbn in Heq.
    rewrite String.eqb_refl in Heq. discriminate.
Qed.

Lemma close_keeps (w : World) (message_id : string) (params : dict json)
    (websocket : WebSocket) :
  keeps pointer_ok (handle_close_terminal_session w message_id params websocket).
Proof.
  unfold handle_close_terminal_session, mbind, M_bind.
  apply keeps_bind; [apply keeps_gets|]. intros current.
  apply with_terminal_keeps. intros k t s -> E H.
  apply keeps_try; [|intros e; apply keeps_effect|exact H].
  apply keeps_bind; [apply keeps_gets|]. intros terminals.
  apply keeps_bind; [unfold lookup, mbind, M_bind; keeps_pointer|]. intros terminal.
  apply keeps_bind; [apply keeps_os|]. intros _.
  apply close_after_wait_keeps.
Qed.

Lemma switch_keeps (w : World) (message_id : string) (params : dict json)
    (websocket : WebSocket) :
  keeps pointer_ok (handle_switch_terminal_session w message_id params websocket).
Proof.
  intros s H. unfold handle_switch_terminal_session, contains, lookup,
    send_error, send_response.
  destruct (truthy (get params "terminalId" (JStr ""))); cbn [negb]; [|exact H].
  run_monad.
  destruct (hash (get params "terminalId" (JStr ""))) as [[| |k]|] eqn:Hh;
    run_monad; try exact H.
  apply hash_str in Hh. rewrite Hh.
  destruct (dict_get k (_active_terminals s)) as [t|] eqn:E.
  - rewrite bool_decide_eq_true_2 by eauto. cbn [negb]. run_monad.
    cbn [hash _active_terminals set_current]. rewrite E. run_monad.
    apply pointer_ok_point. apply (dict_get_keys _ _ _ E).
  - rewrite bool_decide_eq_false_2 by (intros [? ?]; discriminate). exact H.
Qed.

Lemma create_keeps (w : World) (message_id : string) (params : dict json)
    (websocket : WebSocket) :
  keeps pointer_ok (handle_create_terminal_session w message_id params websocket).
Proof.
  unfold handle_create_terminal_session, mbind, M_bind.
  apply keeps_bind; [apply keeps_gets|]. intros terminals.
  apply keeps_try; [|intros e; apply keeps_effect].
  apply keeps_bind; [apply keeps_os|]. intros process.
  intros s H.
  set (session := Session.make _ _ _ _ _ _).
  assert (Hin : forall s', In (uuid4 w) (dict_keys (_active_terminals s')) ->
                           pointer_ok s' ->
                           In (uuid4 w) (dict_keys (_active_terminals s'))
                           /\ pointer_ok s') by auto.
  pose (Q := fun s' => In (uuid4 w) (dict_keys (_active_terminals s')) /\ pointer_ok s').
  assert (HQ : Q (set_terminals (dict_set (uuid4 w) session) s)).
  { split.
    - cbn. apply dict_keys_set_new.
    - apply pointer_ok_grow; [|exact H]. intros k. apply dict_keys_set. }
  unfold bind at 1. unfold modify at 1.
  match goal with
  | |- pointer_ok (final (match ?m ?s0 with _ => _ end)) =>
      assert (Hk : keeps Q m); [|specialize (Hk s0 HQ); destruct (m s0); apply Hk]
  end.
  apply keeps_bind; [apply keeps_gets|]. intros current.
  apply keeps_bind.
  { destruct (negb (truthy current)); [|apply keeps_ret].
    apply keeps_modify. intros s' [Hi Hp]. split; [exact Hi|].
    apply pointer_ok_point, Hi. }
  intros _.
  apply keeps_bind; [apply keeps_lift|]. intros initial_output.
  apply keeps_bind; [apply keeps_gets|]. intros terminals'.
  apply keeps_bind; [unfold lookup, mbind, M_bind; repeat keeps_step idtac|].
  intros _.
  apply keeps_bind; [|intros _; apply keeps_effect].
  unfold extend_output. apply keeps_modify. intros s' [Hi Hp]. split.
  - cbn. destruct (dict_get (uuid4 w) (_active_terminals s'));
      [apply dict_keys_set|]; exact Hi.
  - apply pointer_ok_grow; [|exact Hp]. intros k Hk.
    destruct (dict_get (uuid4 w) (_active_terminals s'));
      [apply dict_keys_set|]; exact Hk.
Qed.

Lemma all_keep_pointer :
  Forall (fun kv => forall w i p ws, keeps pointer_ok (snd kv w i p ws)) ALL_HANDLERS.
Proof.
  rewrite ALL_HANDLERS_eq.
  unfold METHOD_HANDLERS, CLOJURE_HANDLERS, TERMINAL_HANDLERS.
  each_handler; intros w i p ws;
    lazymatch goal with
    | |- keeps _ (handle_create_terminal_session _ _ _ _) => apply create_keeps
    | |- keeps _ (handle_switch_terminal_session _ _ _ _) => apply switch_keeps
    | |- keeps _ (handle_close_terminal_session _ _ _ _) => apply close_keeps
    | |- _ => open_handler; keeps_pointer
    end.
Qed.

Ltac no_success H :=
  let m := fresh "m" in
  let Hs := fresh "Hs" in
  let Ht := fresh "Ht" in
  destruct H as (m & Hs & Ht);
  cbn [log sent omap list_omap app] in Hs;
  first [ discriminate Hs | injection Hs as <-; discriminate Ht ].

(** What a close that is answered with a Response has done. *)
Lemma close_success (w : World) (message_id : string) (params : dict json)
    (websocket : WebSocket) (s : Server) :
  let terminal_id := get params "terminalId" (_current_terminal_id s) in
  let r := handle_close_terminal_session w message_id params websocket s in
  succeeded websocket r ->
  exists k,
    terminal_id = JStr k
    /\ In k (dict_keys (_active_terminals s))
    /\ _active_terminals (final r) = dict_del k (_active_terminals s)
    /\ _current_terminal_id (final r)
       = if py_eq terminal_id (_current_terminal_id s)
         then first_key (dict_del k (_active_terminals s))
         else _current_terminal_id s.
Proof.
  intros terminal_id r. subst r.
  unfold handle_close_terminal_session, with_terminal, contains,
    close_after_wait, del_terminal, lookup, send_error, send_response.
  run_monad. fold terminal_id.
  destruct (truthy terminal_id); cbn [negb]; run_monad;
    [|intros H; no_success H].
  destruct (hash terminal_id) as [[| |k]|] eqn:Hh; run_monad;
    try (intros H; no_success H).
  apply hash_str in Hh. rewrite Hh.
  destruct (dict_get k (_active_terminals s)) as [t|] eqn:E.
  2:{ rewrite bool_decide_eq_false_2 by (intros [? ?]; discriminate).
      cbn [negb]. intros H; no_success H. }
  rewrite bool_decide_eq_true_2 by eauto. cbn [negb hash]. run_monad.
  rewrite E. run_monad.
  destruct (kill_wait w) as [[]| |]; run_monad; cbn [hash]; run_monad; fields;
    try (intros H; no_success H).
  rewrite E. run_monad. fields.
  intros _. exists k. split; [reflexivity|].
  split; [apply (dict_get_keys _ _ _ E)|].
  destruct (py_eq (JStr k) (_current_terminal_id s)); run_monad; fields.
  - destruct (dict_del k (_active_terminals s)) as [|[k0 t0] d] eqn:Ed;
      run_monad; cbn [final]; fields; rewrite ?Ed; auto.
  - cbn [final]; fields; auto.
Qed.

Lemma dict_del_not_in {V} (k : string) (d : dict V) :
  List.NoDup (dict_keys d) -> ~ In k (dict_keys (dict_del k d)).
Proof.
  unfold dict_keys. induction d as [|[k' v] d IH]; cbn; intros Hnd; [tauto|].
  inversion Hnd as [|? ? Hni Hnd']; subst.
  destruct (String.eqb_spec k k') as [->|Hne]; cbn.
  - exact Hni.
  - intros [H|H]; [congruence | exact (IH Hnd' H)].
Qed.

(** C5: every handler that can be dispatched keeps the pointer null or on
    a key of the session map; and a close that succeeds on the current
    session removes it and leaves the pointer null when no session
    remains, and otherwise on the key of a remaining session, the first
    of them, which is not the key just closed. *)
Theorem pointer_stays_valid :
  forall (name : string) (handler : Handler) (w : World) (message_id : string)
         (params : dict json) (websocket : WebSocket) (s : Server),
    dict_get name ALL_HANDLERS = Some handler ->
    pointer_ok s ->
    let r := handler w message_id params websocket s in
    let terminal_id := get params "terminalId" (_current_terminal_id s) in
    pointer_ok (final r)
    /\ (name = "closeTerminalSession" ->
        py_eq terminal_id (_current_terminal_id s) = true ->
        succeeded websocket r ->
        exists k,
          terminal_id = JStr k
          /\ _active_terminals (final r) = dict_del k (_active_terminals s)
          /\ match _active_terminals (final r) with
             | [] => _current_terminal_id (final r) = JNull
             | (k', _) :: _ =>
                 _current_terminal_id (final r) = JStr k'
                 /\ In k' (dict_keys (_active_terminals (final r)))
                 /\ (List.NoDup (dict_keys (_active_terminals s)) -> k' <> k)
             end).
Proof.
  intros name handler w message_id params websocket s Hh H r terminal_id. split.
  - apply dict_get_In in Hh. pose proof all_keep_pointer as HA.
    rewrite List.Forall_forall in HA. apply (HA _ Hh), H.
  - intros -> Heq Hs.
    assert (handler = handle_close_terminal_session) as ->.
    { rewrite ALL_HANDLERS_eq in Hh. cbn in Hh. congruence. }
    destruct (close_success _ _ _ _ _ Hs) as (k & Hk & _ & Ht & Hc).
    fold terminal_id in Hk, Hc. fold r in Ht, Hc.
    exists k. split; [exact Hk|]. split; [exact Ht|].
    rewrite Heq in Hc. rewrite Hc, Ht.
    pose proof (dict_del_not_in k (_active_terminals s)) as Hn.
    destruct (dict_del k (_active_terminals s)) as [|[k' t'] rest];
      [reflexivity|].
    split; [reflexivity|]. split; [left; reflexivity|].
    intros Hnd ->. apply (Hn Hnd). left. reflexivity.
Qed.

Lemma pointer_stays_valid_witness :
  let r := handle_close_terminal_session calm "1" [] 7%nat two_sessions in
  pointer_ok (final r)
  /\ _active_terminals (final r) = [("9a1d", xyz_session)]
  /\ _current_terminal_id (final r) = JStr "9a1d"
  /\ "9a1d" <> "7f3c".
Proof.
  intros r. subst r.
  assert (H0 : pointer_ok two_sessions).
  { right. exists "7f3c". split; [reflexivity | left; reflexivity]. }
  assert (Hnd : List.NoDup (dict_keys (_active_terminals two_sessions))).
  { constructor; [intros [H|[]]; discriminate H|].
    constructor; [intros []|]. constructor. }
  destruct (pointer_stays_valid "closeTerminalSession" handle_close_terminal_session
              calm "1" [] 7%nat two_sessions eq_refl H0) as [Hp Hc].
  split; [exact Hp|].
  destruct (Hc eq_refl eq_refl) as (k & Hk & Ht & Hcur).
  - eexists. split; reflexivity.
  - injection Hk as <-. rewrite Ht in Hcur.
    change (dict_del "7f3c" (_active_terminals two_sessions))
      with [("9a1d", xyz_session)] in *.
    destruct Hcur as (Hcur & _ & Hne).
    split; [exact Ht|]. split; [exact Hcur | exact (Hne Hnd)].
Defined.

(* ===================================================================== *)
(** * The theorems at work on sample inputs *)
(* ===================================================================== *)

Lemma registered_request_reply_witness :
  let h := handle_get_process_output calm "1" [("processId", JStr "p")] 7%nat initial in
  let r := receive ALL_HANDLERS 7%nat
             (Json (request "1" "getProcessOutput" [("processId", JStr "p")]))
             calm initial in
  (exists m, sent (log r) = [(7%nat, m)] /\ is_reply "1" m)
  /\ log r = log h /\ res r = Ok tt.
Proof.
  exact (registered_request_reply
           (request "1" "getProcessOutput" [("processId", JStr "p")])
           (Message.make REQUEST "1" (Some "getProcessOutput")
              (Some [("processId", JStr "p")]) JNull None)
           "getProcessOutput" handle_get_process_output calm 7%nat initial
           eq_refl eq_refl eq_refl eq_refl).
Defined.


Lemma buffer_outlives_process_witness :
  buffered (KStr "p1")
    (run ALL_HANDLERS
       [Receive 7%nat (Json (request "2" "killProcess" [("processId", JStr "p1")])) calm]
       (final (handle_start_long_running_command calm "p1" [] 7%nat initial))).
Proof.
  destruct (buffer_outlives_process calm "p1" [] 7%nat initial
              [Receive 7%nat
                 (Json (request "2" "killProcess" [("processId", JStr "p1")])) calm])
    as (k & Hh & Hb & _).
  - eexists. split; reflexivity.
  - injection Hh as <-. exact Hb.
Defined.

(* ===================================================================== *)
(** * Further properties of the dispatcher *)
(* ===================================================================== *)

(** X1: what the server sends decodes, under the server's own decoder, to
    the message that was sent. *)
Theorem dump_validate_round_trip :
  forall m : Message.t, Message_validate (model_dump m) = Some m.
Proof.
  intros [ty i m p r e]. unfold model_dump, Message_validate.
  cbn [Message.type Message.id Message.method Message.params Message.result
       Message.error].
  change (dict_get "type" _) with (Some (JStr (MessageType_value ty))).
  change (dict_get "id" _) with (Some (JStr i)).
  change (dict_get "method" _) with (Some (json_of_str m)).
  change (dict_get "params" _) with (Some (json_of_dict p)).
  change (dict_get "error" _) with (Some (json_of_dict e)).
  change (get _ "result" JNull) with r.
  destruct ty, m, p, e; reflexivity.
Qed.

(** X2: a frame that decodes to a Response or an Error is passed over:
    nothing is sent, printed or changed. *)
Theorem non_request_ignored :
  forall (handlers : dict Handler) (websocket : WebSocket) (message_data : json)
         (message : Message.t) (w : World) (s : Server),
    Message_validate message_data = Some message ->
    Message.type message <> REQUEST ->
    receive handlers websocket (Json message_data) w s = mkRun [] s (Ok tt).
Proof.
  intros handlers websocket message_data message w s Hv Ht.
  rewrite (receive_decoded _ _ _ _ _ _ Hv). unfold try_except, dispatch.
  destruct (Message.type message); [congruence| |]; reflexivity.
Qed.

Lemma non_request_ignored_witness :
  receive ALL_HANDLERS 7%nat (Json (model_dump (response_of "1" (JInt 5)))) calm initial
  = mkRun [] initial (Ok tt).
Proof.
  apply (non_request_ignored ALL_HANDLERS 7%nat _ (response_of "1" (JInt 5))).
  - reflexivity.
  - discriminate.
Defined.

(** X3: no frame and no handler, whatever it does, makes a turn of the
    receive loop raise: the loop goes on to the next frame unless the
    handler never resumes. *)
Theorem receive_never_raises :
  forall (handlers : dict Handler) (websocket : WebSocket) (frame : Frame)
         (w : World) (s : Server) (e : PyExn),
    res (receive handlers websocket frame w s) <> Raise e.
Proof.
  intros handlers websocket frame w s e. unfold receive, try_except.
  destruct frame as [|message_data]; [discriminate|].
  match goal with
  | |- res (match ?b s with _ => _ end) <> _ => destruct (b s) as [l s' [[]|e'|]]
  end; discriminate.
Qed.

Lemma receive_sent (websocket : WebSocket) (frame : Frame) (w : World) (s : Server) :
  sent (log (receive ALL_HANDLERS websocket frame w s)) = []
  \/ exists m, sent (log (receive ALL_HANDLERS websocket frame w s)) = [(websocket, m)].
Proof.
  destruct (receive_reply websocket frame w s) as [H|(i & m & _ & H & _)].
  - left. exact H.
  - right. exists m. exact H.
Qed.

(** X4: whatever a channel is sent, every message the server emits while
    serving it goes out on that same channel, and there is at most one for
    each frame received. *)
Theorem replies_stay_on_channel :
  forall (websocket : WebSocket) (frames : list (Frame * World)) (s : Server),
    let out := sent (log (serve ALL_HANDLERS websocket frames s)) in
    Forall (fun x => fst x = websocket) out
    /\ (length out <= length frames)%nat.
Proof.
  intros websocket frames. induction frames as [|[frame w] frames IH]; intros s.
  - cbn. split; [constructor | lia].
  - cbv zeta. rewrite serve_cons.
    pose proof (receive_sent websocket frame w s) as Hr.
    destruct (receive ALL_HANDLERS websocket frame w s) as [l s' [[]|e|]];
      cbn [log] in *.
    + specialize (IH s'). cbv zeta in IH.
      destruct (serve ALL_HANDLERS websocket frames s') as [l' s'' r'];
        cbn [log] in *.
      rewrite sent_app. destruct IH as [IH1 IH2].
      destruct Hr as [->|[m ->]]; cbn [app length].
      * split; [exact IH1 | lia].
      * split; [constructor; [reflexivity | exact IH1] | lia].
    + destruct Hr as [->|[m ->]]; cbn [length].
      * split; [constructor | lia].
      * split; [constructor; [reflexivity | constructor] | lia].
    + destruct Hr as [->|[m ->]]; cbn [length].
      * split; [constructor | lia].
      * split; [constructor; [reflexivity | constructor] | lia].
Qed.

(** ** The registry of connections *)

Lemma list_remove_last (x : WebSocket) (l : list WebSocket) :
  ~ In x l -> list_remove x (l ++ [x]) = Some l.
Proof.
  induction l as [|y l IH]; cbn; intros H.
  - rewrite Nat.eqb_refl. reflexivity.
  - destruct (Nat.eqb_spec x y) as [->|_]; [tauto|].
    rewrite IH by tauto. reflexivity.
Qed.

Ltac same_connections := intros ? ?; assumption.

Lemma all_keep_connections (L : list WebSocket) :
  Forall (fun kv => forall w i p ws, keeps (fun s => connections s = L) (snd kv w i p ws))
    ALL_HANDLERS.
Proof.
  rewrite ALL_HANDLERS_eq.
  unfold METHOD_HANDLERS, CLOJURE_HANDLERS, TERMINAL_HANDLERS.
  each_handler; intros w i p ws; open_handler; repeat keeps_step same_connections.
Qed.

Lemma serve_keeps (P : Server -> Prop) (handlers : dict Handler) :
  Forall (fun kv => forall w i p ws, keeps P (snd kv w i p ws)) handlers ->
  forall ws frames, keeps P (serve handlers ws frames).
Proof.
  intros HA ws frames. induction frames as [|[frame w] frames IH].
  - apply keeps_ret.
  - cbn [serve]. unfold mbind, M_bind. apply keeps_bind.
    + apply (receive_keeps P handlers HA).
    + intros _. exact IH.
Qed.

(** X5: a channel that connects, is served until every handler has
    returned and disconnects leaves the registry of connections as it found
    it; no handler touches the registry. *)
Theorem endpoint_restores_registry :
  forall (websocket : WebSocket) (frames : list (Frame * World)) (s : Server),
    ~ In websocket (connections s) ->
    res (serve ALL_HANDLERS websocket frames
           (set_manager (set_connections (fun l => l ++ [websocket])) s)) = Ok tt ->
    let r := websocket_endpoint ALL_HANDLERS websocket frames s in
    res r = Ok tt /\ connections (final r) = connections s.
Proof.
  intros websocket frames s Hin Hs r. subst r.
  set (s1 := set_manager (set_connections (fun l => l ++ [websocket])) s) in *.
  pose proof (serve_keeps _ _ (all_keep_connections (connections s ++ [websocket]))
                websocket frames s1 eq_refl) as Hk.
  assert (He : websocket_endpoint ALL_HANDLERS websocket frames s
               = match bind (serve ALL_HANDLERS websocket frames)
                         (fun _ => disconnect websocket) s1 with
                 | mkRun l' s'' r => mkRun ([] ++ l') s'' r
                 end) by reflexivity.
  rewrite He. clear He. unfold bind.
  destruct (serve ALL_HANDLERS websocket frames s1) as [l s2 [[]|e|]];
    cbn [res final] in *; try discriminate.
  unfold disconnect. run_monad. unfold connections in *. rewrite Hk.
  rewrite (list_remove_last _ _ Hin). run_monad. cbn [final res manager
    set_manager set_connections active_connections]. auto.
Qed.

Lemma endpoint_restores_registry_witness :
  let r := websocket_endpoint ALL_HANDLERS 7%nat
             [(Json (request "1" "nope" []), calm)] initial in
  res r = Ok tt /\ connections (final r) = [].
Proof.
  apply (endpoint_restores_registry 7%nat [(Json (request "1" "nope" []), calm)] initial).
  - intros [].
  - reflexivity.
Defined.

(* ===================================================================== *)
(** * Further properties of the process supervisor *)
(* ===================================================================== *)

Lemma kill_unknown (w : World) (message_id : string) (params : dict json)
    (websocket : WebSocket) (k : pykey) (s : Server) :
  hash (get params "processId" (JStr "")) = Some k ->
  running_processes (manager s) !! k = None ->
  handle_kill_process w message_id params websocket s
  = mkRun [Send websocket
             (error_of message_id 404
                ("Process " +:+ format w (get params "processId" (JStr ""))
                 +:+ " not found"))] s (Ok tt).
Proof.
  intros Hh Hr. unfold handle_kill_process, send_error. run_monad.
  rewrite Hh. run_monad. rewrite Hr. reflexivity.
Qed.

(** X6: a kill of a live key that goes through answers "killed", takes
    the key out of the live set and leaves every buffer alone; any later
    kill of the same key is answered 404 and changes nothing. *)
Theorem kill_once :
  forall (w : World) (message_id : string) (params : dict json)
         (websocket : WebSocket) (k : pykey) (process : Process) (s : Server),
    hash (get params "processId" (JStr "")) = Some k ->
    running_processes (manager s) !! k = Some process ->
    kill_wait w = Returns tt ->
    let r := handle_kill_process w message_id params websocket s in
    r = mkRun [Send websocket (response_of message_id (JObj [("status", JStr "killed")]))]
          (set_manager (set_running (delete k)) s) (Ok tt)
    /\ forall w' message_id' websocket',
         handle_kill_process w' message_id' params websocket' (final r)
         = mkRun [Send websocket'
                    (error_of message_id' 404
                       ("Process " +:+ format w' (get params "processId" (JStr ""))
                        +:+ " not found"))] (final r) (Ok tt).
Proof.
  intros w message_id params websocket k process s Hh Hr Hk r.
  assert (Hrun : r = mkRun [Send websocket
                              (response_of message_id (JObj [("status", JStr "killed")]))]
                       (set_manager (set_running (delete k)) s) (Ok tt)).
  { unfold r, handle_kill_process, kill_after_wait, send_response, send_error.
    run_monad. rewrite Hh. run_monad. rewrite Hr. run_monad. rewrite Hk. run_monad.
    rewrite Hr. rewrite bool_decide_eq_true_2 by eauto. reflexivity. }
  split; [exact Hrun|]. intros w' message_id' websocket'.
  apply (kill_unknown _ _ _ _ k); [exact Hh|].
  rewrite Hrun. cbn. apply lookup_delete_eq.
Qed.

Lemma kill_once_witness :
  let s := final (handle_start_long_running_command calm "p1" [] 7%nat initial) in
  handle_kill_process calm "2" [("processId", JStr "p1")] 7%nat s
  = mkRun [Send 7%nat (response_of "2" (JObj [("status", JStr "killed")]))]
      (set_manager (set_running (delete (KStr "p1"))) s) (Ok tt).
Proof.
  intros s.
  exact (proj1 (kill_once calm "2" [("processId", JStr "p1")] 7%nat (KStr "p1")
                  (Proc 1) s eq_refl eq_refl eq_refl)).
Defined.

(** X7: when killing raises (the process is already gone, say), the answer
    is an Error 500 and the key stays in the live set: nothing changes. *)
Theorem kill_failure_changes_nothing :
  forall (w : World) (message_id : string) (params : dict json)
         (websocket : WebSocket) (k : pykey) (process : Process) (s : Server),
    hash (get params "processId" (JStr "")) = Some k ->
    running_processes (manager s) !! k = Some process ->
    kill_wait w = Raises ->
    handle_kill_process w message_id params websocket s
    = mkRun [Send websocket (error_of message_id 500 (str_e w))] s (Ok tt).
Proof.
  intros w message_id params websocket k process s Hh Hr Hk.
  unfold handle_kill_process, kill_after_wait, send_response, send_error.
  run_monad. rewrite Hh. run_monad. rewrite Hr. run_monad. rewrite Hk. reflexivity.
Qed.

Lemma kill_failure_changes_nothing_witness :
  let s := final (handle_start_long_running_command calm "p1" [] 7%nat initial) in
  handle_kill_process stuck_kill "2" [("processId", JStr "p1")] 7%nat s
  = mkRun [Send 7%nat (error_of "2" 500 "error")] s (Ok tt).
Proof.
  intros s.
  exact (kill_failure_changes_nothing stuck_kill "2" [("processId", JStr "p1")] 7%nat
           (KStr "p1") (Proc 1) s eq_refl eq_refl eq_refl).
Defined.

(** X8: a start either succeeds or leaves the state as it was: a spawn that
    fails, and a process id that cannot be used as a key, add nothing to
    the live set or to the buffers. *)
Theorem start_all_or_nothing :
  forall (w : World) (message_id : string) (params : dict json)
         (websocket : WebSocket) (s : Server),
    let r := handle_start_long_running_command w message_id params websocket s in
    succeeded websocket r \/ final r = s.
Proof.
  intros w message_id params websocket s r. subst r.
  unfold handle_start_long_running_command, update_env, send_response, send_error.
  destruct (update_error _); run_monad; [right; reflexivity|].
  destruct (spawn w) as [process| |]; run_monad; try (right; reflexivity).
  destruct (hash (get params "processId" (JStr message_id))) as [k|]; run_monad.
  - left. eexists. split; reflexivity.
  - right. reflexivity.
Qed.

(** ** The pump only appends, and only to its own buffer *)

Lemma append_output_grows (k : pykey) (lines : list string) (process_id : json)
    (line : string) :
  keeps (grows k lines) (append_output process_id line).
Proof.
  intros s [new H]. unfold append_output. run_monad.
  destruct (hash process_id) as [a|]; run_monad; [|exists new; exact H].
  destruct (process_output_buffers (manager s) !! a) as [l|] eqn:E; run_monad;
    [|exists new; exact H].
  unfold grows. cbn. destruct (decide (a = k)) as [->|Hne].
  - rewrite lookup_insert_eq. rewrite H in E. injection E as <-.
    exists (new ++ [line]). rewrite app_assoc. reflexivity.
  - rewrite lookup_insert_ne by exact Hne. exists new. exact H.
Qed.

Lemma append_output_other (k : pykey) (v : option (list string)) (process_id : json)
    (line : string) :
  hash process_id <> Some k ->
  keeps (fun s => process_output_buffers (manager s) !! k = v)
        (append_output process_id line).
Proof.
  intros Hne s H. unfold append_output. run_monad.
  destruct (hash process_id) as [a|]; run_monad; [|exact H].
  destruct (process_output_buffers (manager s) !! a) as [l|] eqn:E; run_monad;
    [|exact H].
  cbn. rewrite lookup_insert_ne by congruence. exact H.
Qed.

Lemma del_running_keeps_buffers (P : gmap pykey (list string) -> Prop)
    (process_id : json) :
  keeps (fun s => P (process_output_buffers (manager s))) (del_running process_id).
Proof.
  unfold del_running, mbind, M_bind.
  repeat keeps_step ltac:(intros ? ?; assumption).
Qed.

Lemma pump_turn_keeps (P : Server -> Prop) (process_id : json) (p : Poll) :
  (forall line, keeps P (append_output process_id line)) ->
  keeps P (del_running process_id) ->
  keeps P (pump_turn process_id p).
Proof.
  intros Ha Hd. unfold pump_turn, pump_reads, pump_read, mbind, M_bind.
  repeat first [ apply Ha | apply Hd | keeps_step fail ].
Qed.

Lemma collect_keeps (P : Server -> Prop) (process_id : json) (process : Process)
    (websocket : WebSocket) (polls : list Poll) :
  (forall p, keeps P (pump_turn process_id p)) ->
  keeps P (collect_process_output process_id process websocket polls).
Proof.
  intros Hp. induction polls as [|p polls IH].
  - apply keeps_ret.
  - cbn [collect_process_output]. unfold mbind, M_bind. apply keeps_bind.
    + apply Hp.
    + intros [|]; [exact IH | apply keeps_ret].
Qed.

(** X9: the pump is append-only. Whatever it reads and however it ends,
    the lines that were in a buffer before are still there afterwards, in
    the same order and in front of anything new. *)
Theorem pump_appends_only :
  forall (process_id : json) (process : Process) (websocket : WebSocket)
         (polls : list Poll) (k : pykey) (lines : list string) (s : Server),
    process_output_buffers (manager s) !! k = Some lines ->
    exists new,
      process_output_buffers
        (manager (final (collect_process_output process_id process websocket polls s)))
        !! k = Some (lines ++ new).
Proof.
  intros process_id process websocket polls k lines s H.
  apply (collect_keeps (grows k lines)).
  - intros p. apply pump_turn_keeps.
    + intros line. apply append_output_grows.
    + apply (del_running_keeps_buffers
               (fun b => exists new, b !! k = Some (lines ++ new))).
  - exists []. rewrite app_nil_r. exact H.
Qed.

Lemma pump_appends_only_witness :
  exists new,
    process_output_buffers
      (manager (final (collect_process_output (JStr "p1") (Proc 1) 7%nat
                         [mkPoll false false None (Bytes line_hi) Timeout]
                         (final (handle_start_long_running_command calm "p1" []
                                   7%nat initial)))))
      !! KStr "p1" = Some ([] ++ new).
Proof.
  apply (pump_appends_only (JStr "p1") (Proc 1) 7%nat
           [mkPoll false false None (Bytes line_hi) Timeout] (KStr "p1") []).
  reflexivity.
Defined.

(** X10: buffers are isolated by key. The pump of one process never
    touches the buffer of another key. *)
Theorem pump_leaves_other_buffers :
  forall (process_id : json) (process : Process) (websocket : WebSocket)
         (polls : list Poll) (k : pykey) (s : Server),
    hash process_id <> Some k ->
    process_output_buffers
      (manager (final (collect_process_output process_id process websocket polls s)))
      !! k
    = process_output_buffers (manager s) !! k.
Proof.
  intros process_id process websocket polls k s Hne.
  apply (collect_keeps
           (fun s' => process_output_buffers (manager s') !! k
                      = process_output_buffers (manager s) !! k)).
  - intros p. apply pump_turn_keeps.
    + intros line. apply append_output_other, Hne.
    + apply (del_running_keeps_buffers
               (fun b => b !! k = process_output_buffers (manager s) !! k)).
  - reflexivity.
Qed.

Lemma pump_leaves_other_buffers_witness :
  process_output_buffers
    (manager (final (collect_process_output (JStr "p1") (Proc 1) 7%nat
                       [mkPoll false false None (Bytes line_hi) Timeout]
                       (final (handle_start_long_running_command calm "p2" []
                                 7%nat initial)))))
    !! KStr "p2"
  = Some [].
Proof.
  rewrite (pump_leaves_other_buffers (JStr "p1") (Proc 1) 7%nat
             [mkPoll false false None (Bytes line_hi) Timeout] (KStr "p2"));
    [reflexivity | discriminate].
Defined.

(** X11: a pump that sees its process exit after the key has already left
    the live set (a kill got there first) still appends the exit marker,
    and then dies of the [KeyError] of its own [del]. *)
Theorem pump_exit_after_kill :
  forall (process_id : json) (k : pykey) (lines : list string) (p : Poll)
         (exit_code : Z) (s : Server),
    hash process_id = Some k ->
    process_output_buffers (manager s) !! k = Some lines ->
    running_processes (manager s) !! k = None ->
    stdout_at_eof p = true -> stderr_at_eof p = true ->
    returncode p = Some exit_code ->
    pump_turn process_id p s
    = mkRun [] (set_manager (set_buffers <[k := lines ++ [exit_marker exit_code]]>) s)
        (Raise KeyError).
Proof.
  intros process_id k lines p exit_code s Hh Hb Hr Ho He Hc.
  unfold pump_turn. rewrite Ho, He, Hc. cbn [andb]. fold (exit_marker exit_code).
  unfold append_output, del_running. run_monad. rewrite Hh. run_monad.
  rewrite Hb. run_monad.
  change (running_processes (manager (set_manager (set_buffers
            <[k := lines ++ [exit_marker exit_code]]>) s)))
    with (running_processes (manager s)).
  rewrite Hr. reflexivity.
Qed.

Lemma pump_exit_after_kill_witness :
  let s := final (handle_kill_process calm "2" [("processId", JStr "p1")] 7%nat
                    (final (handle_start_long_running_command calm "p1" [] 7%nat
                              initial))) in
  pump_turn (JStr "p1") (mkPoll true true (Some (-9)) Timeout Timeout) s
  = mkRun [] (set_manager (set_buffers <[KStr "p1" := [] ++ [exit_marker (-9)]]>) s)
      (Raise KeyError).
Proof.
  intros s.
  exact (pump_exit_after_kill (JStr "p1") (KStr "p1") []
           (mkPoll true true (Some (-9)) Timeout Timeout) (-9) s
           eq_refl eq_refl eq_refl eq_refl eq_refl eq_refl).
Defined.

(** X12: a drain of a key that has no buffer is answered 404 and changes
    nothing. *)
Theorem drain_unknown_key :
  forall (process_id : json) (k : pykey) (w : World) (message_id : string)
         (websocket : WebSocket) (s : Server),
    hash process_id = Some k ->
    process_output_buffers (manager s) !! k = None ->
    drain process_id w message_id websocket s
    = mkRun [Send websocket
               (error_of message_id 404
                  ("Process " +:+ format w process_id +:+ " not found"))]
        s (Ok tt).
Proof. intros. apply (drain_missing _ k); assumption. Qed.

Lemma drain_unknown_key_witness :
  drain (JInt 5) calm "1" 7%nat initial
  = mkRun [Send 7%nat (error_of "1" 404 "Process 5 not found")] initial (Ok tt).
Proof.
  exact (drain_unknown_key (JInt 5) (KInt 5) calm "1" 7%nat initial eq_refl eq_refl).
Defined.

(* ===================================================================== *)
(** * Further properties of the terminal multiplexer *)
(* ===================================================================== *)

Lemma dict_get_set_eq {V} (k : string) (v : V) (d : dict V) :
  dict_get k (dict_set k v d) = Some v.
Proof.
  induction d as [|[k' v'] d IH]; cbn.
  - rewrite String.eqb_refl. reflexivity.
  - destruct (String.eqb_spec k k') as [->|Hne]; cbn.
    + rewrite String.eqb_refl. reflexivity.
    + destruct (String.eqb_spec k k'); [congruence | exact IH].
Qed.

Lemma dict_get_set_ne {V} (k k' : string) (v : V) (d : dict V) :
  k' <> k -> dict_get k' (dict_set k v d) = dict_get k' d.
Proof.
  intros Hne. induction d as [|[k0 v0] d IH]; cbn.
  - destruct (String.eqb_spec k' k); [congruence | reflexivity].
  - destruct (String.eqb_spec k k0) as [->|H0]; cbn.
    + destruct (String.eqb_spec k' k0); [congruence | reflexivity].
    + destruct (String.eqb_spec k' k0); [reflexivity | exact IH].
Qed.

Lemma truthy_str (k : string) : k <> "" -> truthy (JStr k) = true.
Proof. intros H. cbn. destruct (String.eqb_spec k ""); [congruence | reflexivity]. Qed.

(** The checks of [with_terminal] pass for an id that names a session. *)
Lemma with_terminal_run (w : World) (k : string) (t : Session.t)
    (message_id : string) (websocket : WebSocket) (body : M unit) (s : Server) :
  k <> "" ->
  dict_get k (_active_terminals s) = Some t ->
  with_terminal w (JStr k) message_id websocket body s = body s.
Proof.
  intros Hk E. unfold with_terminal, contains. rewrite (truthy_str _ Hk).
  cbn [negb hash]. run_monad. rewrite E.
  rewrite bool_decide_eq_true_2 by eauto. cbn [negb].
  destruct (body s); reflexivity.
Qed.


(** X13: reading the history and listing the sessions never change the
    state, whatever the parameters and however the call ends. *)
Theorem reading_changes_nothing :
  forall (w : World) (message_id : string) (params : dict json)
         (websocket : WebSocket) (s : Server),
    final (handle_read_terminal_output w message_id params websocket s) = s
    /\ final (handle_list_terminal_sessions w message_id params websocket s) = s.
Proof.
  intros w message_id params websocket s.
  assert (Hr : keeps (fun s' => s' = s)
                 (handle_read_terminal_output w message_id params websocket)).
  { open_handler. repeat keeps_step fail. }
  assert (Hl : keeps (fun s' => s' = s)
                 (handle_list_terminal_sessions w message_id params websocket)).
  { open_handler. repeat keeps_step fail. }
  split; [exact (Hr s eq_refl) | exact (Hl s eq_refl)].
Qed.

(** X14: read from the end with a positive count, the history gives its
    last [min lineCount length] lines. *)
Theorem window_from_end :
  forall (n : Z) (history : list string) (s : Server),
    0 < n ->
    window (JInt n) (JBool true) history s
    = mkRun [] s
        (Ok (drop (length history - Z.to_nat (Z.min n (Z.of_nat (length history))))
               history)).
Proof. intros n history s Hn. apply window_of_positive_lines, Hn. Qed.

Lemma window_from_end_witness :
  window (JInt 2) (JBool true) ["a"; "b"; "c"] initial
  = mkRun [] initial (Ok ["b"; "c"]).
Proof. exact (window_from_end 2 ["a"; "b"; "c"] initial eq_refl). Defined.

(** X15: read from the start with a count that is not negative, the
    history gives its first [min lineCount length] lines; with a null
    count it gives all of them. *)
Theorem window_from_start :
  forall (n : Z) (history : list string) (s : Server),
    0 <= n ->
    window (JInt n) (JBool false) history s
    = mkRun [] s (Ok (take (Z.to_nat n) history))
    /\ window JNull (JBool false) history s = mkRun [] s (Ok history).
Proof.
  intros n history s Hn. unfold window. destruct history as [|x history].
  - rewrite take_nil. split; reflexivity.
  - cbn [truthy as_index]. unfold mbind, M_bind, bind, orelse, ret.
    split; [|reflexivity]. unfold slice_to. set (l := x :: history).
    destruct (Z.ltb_spec n 0) as [|_]; [lia|].
    do 2 f_equal. destruct (Z.le_ge_cases n (Z.of_nat (length l))).
    + rewrite Z.min_l by lia. reflexivity.
    + rewrite Z.min_r by lia. rewrite Nat2Z.id.
      rewrite !take_ge by lia. reflexivity.
Qed.

Lemma window_from_start_witness :
  window (JInt 2) (JBool false) ["a"; "b"; "c"] initial
  = mkRun [] initial (Ok ["a"; "b"]).
Proof.
  exact (proj1 (window_from_start 2 ["a"; "b"; "c"] initial ltac:(lia))).
Defined.

(** X16: a write that goes through puts the text and a line feed on the
    input of the session's shell, answers with the lines read back, and
    appends exactly those lines to the history of that session. *)
Theorem write_appends_to_history :
  forall (w : World) (message_id : string) (params : dict json)
         (websocket : WebSocket) (k : string) (t : Session.t)
         (lines : list string) (s : Server),
    truthy (get params "text" (JStr "")) = true ->
    get params "terminalId" (_current_terminal_id s) = JStr k ->
    k <> "" ->
    dict_get k (_active_terminals s) = Some t ->
    stdin_drain w = Returns tt ->
    read_lines (stream w) = Ok lines ->
    let r := handle_write_to_terminal w message_id params websocket s in
    log r = [StdinWrite (Session.process t)
               (encode (format w (get params "text" (JStr "")) +:+ LF));
             Send websocket
               (response_of message_id
                  (JObj [("output", lines_json lines);
                         ("lineCount", len_json lines)]))]
    /\ res r = Ok tt
    /\ history k (final r) = Some (Session.output t ++ lines).
Proof.
  intros w message_id params websocket k t lines s Ht Hid Hk E Hd Hl r. subst r.
  unfold handle_write_to_terminal, lookup, extend_output, send_response, send_error.
  run_monad. rewrite Ht, Hid. cbn [negb hash].
  rewrite (with_terminal_run _ _ _ _ _ _ _ Hk E).
  rewrite E, Hd, Hl. run_monad.
  cbn [log res final]. split; [reflexivity|]. split; [reflexivity|].
  unfold history. cbn [_active_terminals set_terminals]. rewrite E.
  rewrite dict_get_set_eq. reflexivity.
Qed.

Lemma write_appends_to_history_witness :
  history "7f3c" (final (handle_write_to_terminal echo "1" [("text", JStr "echo hi")]
                           7%nat abc_server))
  = Some (["a"; "b"; "c"] ++ ["hi"]).
Proof.
  exact (proj2 (proj2 (write_appends_to_history echo "1" [("text", JStr "echo hi")]
                         7%nat "7f3c" abc_session ["hi"] abc_server
                         eq_refl eq_refl ltac:(discriminate) eq_refl eq_refl eq_refl))).
Defined.

(** X17: clearing empties the history of the session it names and of no
    other; the pointer and the live set stay as they are. *)
Theorem clear_empties_one_history :
  forall (w : World) (message_id : string) (params : dict json)
         (websocket : WebSocket) (k : string) (t : Session.t) (s : Server),
    get params "terminalId" (_current_terminal_id s) = JStr k ->
    k <> "" ->
    dict_get k (_active_terminals s) = Some t ->
    let r := handle_clear_terminal_output w message_id params websocket s in
    succeeded websocket r
    /\ history k (final r) = Some []
    /\ (forall k', k' <> k -> history k' (final r) = history k' s)
    /\ _current_terminal_id (final r) = _current_terminal_id s
    /\ manager (final r) = manager s.
Proof.
  intros w message_id params websocket k t s Hid Hk E r. subst r.
  unfold handle_clear_terminal_output, lookup, send_response, send_error.
  run_monad. rewrite Hid. cbn [hash].
  rewrite (with_terminal_run _ _ _ _ _ _ _ Hk E).
  rewrite ?E. run_monad. rewrite ?E. cbn [log res final].
  split; [eexists; split; reflexivity|].
  unfold history. cbn [_active_terminals set_terminals].
  split; [rewrite dict_get_set_eq; reflexivity|].
  split; [|split; reflexivity].
  intros k' Hne. rewrite dict_get_set_ne by exact Hne. reflexivity.
Qed.

Lemma clear_empties_one_history_witness :
  history "7f3c" (final (handle_clear_terminal_output calm "1" [] 7%nat abc_server))
  = Some [].
Proof.
  exact (proj1 (proj2 (clear_empties_one_history calm "1" [] 7%nat "7f3c" abc_session
                         abc_server eq_refl ltac:(discriminate) eq_refl))).
Defined.




(** X19: for a session that exists, a control character outside the
    table (compared in lower case) is answered 400 and nothing is
    written or changed; one inside the table puts exactly one byte, its
    code, on the input of the session's shell, whatever happens next. *)
Theorem control_character_byte :
  forall (w : World) (message_id : string) (params : dict json)
         (websocket : WebSocket) (c k : string) (t : Session.t) (s : Server),
    get params "character" (JStr "") = JStr c ->
    c <> "" ->
    get params "terminalId" (_current_terminal_id s) = JStr k ->
    k <> "" ->
    dict_get k (_active_terminals s) = Some t ->
    let r := handle_send_control_character w message_id params websocket s in
    match dict_get (lower c) ctrl_chars with
    | None =>
        r = mkRun [Send websocket
                     (error_of message_id 400 ("Unsupported control character: " +:+ c))]
              s (Ok tt)
    | Some char_code =>
        exists b, Byte.to_N b = Z.to_N char_code
                  /\ stdin_writes (log r) = [(Session.process t, [b])]
    end.
Proof.
  intros w message_id params websocket c k t s Hc Hc0 Hid Hk E r. subst r.
  unfold handle_send_control_character, lookup, lower_of, extend_output,
    send_response, send_error.
  run_monad. rewrite Hc, Hid. rewrite (truthy_str _ Hc0). cbn [negb hash].
  rewrite (with_terminal_run _ _ _ _ _ _ _ Hk E).
  rewrite E. run_monad.
  destruct (dict_get (lower c) ctrl_chars) as [char_code|] eqn:Ec.
  - apply dict_get_In in Ec. unfold ctrl_chars in Ec. cbn [In] in Ec.
    assert (Hb : exists b, byte_of_code char_code = Some b
                           /\ Byte.to_N b = Z.to_N char_code).
    { repeat (destruct Ec as [[= _ <-]|Ec]; [eexists; split; reflexivity|]).
      destruct Ec. }
    destruct Hb as (b & Hb & Hn). exists b. split; [exact Hn|].
    rewrite Hb. run_monad.
    destruct (stdin_drain w) as [[]| |]; run_monad; try reflexivity.
    destruct (read_lines (stream w)) as [lines|e|]; run_monad; reflexivity.
  - cbn [format]. reflexivity.
Qed.

Lemma control_character_byte_witness :
  exists b, Byte.to_N b = Z.to_N 3
            /\ stdin_writes
                 (log (handle_send_control_character calm "1" [("character", JStr "C")]
                         7%nat abc_server))
               = [(Proc 2, [b])].
Proof.
  exact (control_character_byte calm "1" [("character", JStr "C")] 7%nat "C" "7f3c"
           abc_session abc_server eq_refl ltac:(discriminate) eq_refl
           ltac:(discriminate) eq_refl).
Defined.

(** X20: once the shell is spawned, create has registered the session
    under the fresh id whatever the answer turns out to be (an
    undecodable banner gives a 500 and still leaves the session), and the
    pointer moves to it only when it was null or empty before; when the
    spawn fails nothing changes. *)
Theorem create_registers_session :
  forall (w : World) (message_id : string) (params : dict json)
         (websocket : WebSocket) (s : Server),
    let r := handle_create_terminal_session w message_id params websocket s in
    match spawn w with
    | Returns p =>
        (exists t, dict_get (uuid4 w) (_active_terminals (final r)) = Some t
                   /\ Session.process t = p)
        /\ _current_terminal_id (final r)
           = (if truthy (_current_terminal_id s) then _current_terminal_id s
              else JStr (uuid4 w))
    | _ => final r = s
    end.
Proof.
  intros w message_id params websocket s r. subst r.
  unfold handle_create_terminal_session, lookup, extend_output,
    send_response, send_error.
  run_monad. destruct (spawn w) as [p| |]; run_monad; try reflexivity.
  fields. cbn [hash].
  destruct (truthy (_current_terminal_id s)); cbn [negb]; run_monad; fields;
    (destruct (read_lines (stream w)) as [lines|e|]; run_monad; fields;
     rewrite ?dict_get_set_eq; run_monad; cbn [final]; fields;
     rewrite ?dict_get_set_eq;
     (split; [eexists; split; [first [reflexivity | apply dict_get_set_eq]|reflexivity]
            | reflexivity])).
Qed.

(** X21: switching to a session that exists moves the pointer to it,
    touches nothing else and answers with its name, shell and directory;
    an id that names no session is answered 404 and changes nothing. *)
Theorem switch_moves_pointer :
  forall (w : World) (message_id : string) (params : dict json)
         (websocket : WebSocket) (k : string) (s : Server),
    get params "terminalId" (JStr "") = JStr k ->
    k <> "" ->
    handle_switch_terminal_session w message_id params websocket s
    = match dict_get k (_active_terminals s) with
      | Some t =>
          mkRun [Send websocket
                   (response_of message_id
                      (JObj [("terminalId", JStr k);
                             ("name", Session.name t);
                             ("shell", Session.shell t);
                             ("cwd", Session.cwd t)]))]
            (set_current (JStr k) s) (Ok tt)
      | None =>
          mkRun [Send websocket
                   (error_of message_id 404
                      ("Terminal session with ID " +:+ k +:+ " not found"))]
            s (Ok tt)
      end.
Proof.
  intros w message_id params websocket k s Hid Hk.
  unfold handle_switch_terminal_session, contains, lookup, not_found,
    send_response, send_error.
  run_monad. rewrite Hid. rewrite (truthy_str _ Hk). cbn [negb hash format].
  run_monad.
  destruct (dict_get k (_active_terminals s)) as [t|] eqn:E.
  - rewrite bool_decide_eq_true_2 by eauto. cbn [negb]. run_monad. fields.
    rewrite E. run_monad. reflexivity.
  - rewrite bool_decide_eq_false_2 by (intros [? ?]; discriminate).
    reflexivity.
Qed.

Lemma switch_moves_pointer_witness :
  handle_switch_terminal_session calm "1" [("terminalId", JStr "nope")] 7%nat abc_server
  = mkRun [Send 7%nat
             (error_of "1" 404 "Terminal session with ID nope not found")]
      abc_server (Ok tt).
Proof.
  exact (switch_moves_pointer calm "1" [("terminalId", JStr "nope")] 7%nat "nope"
           abc_server eq_refl ltac:(discriminate)).
Defined.





(* ===================================================================== *)
(** * Further properties of the drain and of the Clojure REPL handler *)
(* ===================================================================== *)

(** X24: a drain consumes what it returns: a second drain of the same
    key, with nothing pumped in between, is answered with an empty
    output and leaves the state as the first drain left it. *)
Theorem drain_twice :
  forall (process_id : json) (k : pykey) (lines : list string) (w : World)
         (message_id message_id' : string) (websocket websocket' : WebSocket)
         (s : Server),
    hash process_id = Some k ->
    process_output_buffers (manager s) !! k = Some lines ->
    let s1 := final (drain process_id w message_id websocket s) in
    drain process_id w message_id' websocket' s1
    = mkRun [Send websocket'
               (response_of message_id'
                  (drained []
                     (bool_decide (is_Some (running_processes (manager s) !! k)))))]
        s1 (Ok tt).
Proof.
  intros process_id k lines w message_id message_id' websocket websocket' s Hh Hb s1.
  subst s1. rewrite (drain_run _ _ _ _ _ _ _ Hh Hb). cbn [final].
  rewrite (drain_run process_id k [] w message_id' websocket').
  - f_equal. destruct s as [[c r b] t p]. unfold set_manager, set_buffers. cbn.
    rewrite insert_insert_eq. reflexivity.
  - exact Hh.
  - destruct s as [[c r b] t p]. cbn. apply lookup_insert_eq.
Qed.

Lemma drain_twice_witness :
  drain (JStr "p") calm "2" 7%nat
    (final (drain (JStr "p") calm "1" 7%nat
              (set_manager (set_buffers <[KStr "p" := ["x"]]>) initial)))
  = mkRun [Send 7%nat (response_of "2" (drained [] false))]
      (final (drain (JStr "p") calm "1" 7%nat
                (set_manager (set_buffers <[KStr "p" := ["x"]]>) initial)))
      (Ok tt).
Proof.
  exact (drain_twice (JStr "p") (KStr "p") ["x"] calm "1" "2" 7%nat 7%nat
           (set_manager (set_buffers <[KStr "p" := ["x"]]>) initial)
           eq_refl eq_refl).
Defined.

(** X25: a REPL that starts is registered under the key
    ["clj_repl_" + request id], whatever [processId] the request carried:
    the handler does what startLongRunningCommand does for that key. *)
Theorem clojure_start_key :
  forall (w : World) (message_id : string) (params : dict json)
         (websocket : WebSocket) (path : string) (p : Process) (s : Server),
    get params "action" (JStr "start") = JStr "start" ->
    get params "projectPath" (JStr (getcwd w)) = JStr path ->
    spawn w = Returns p ->
    let key := "clj_repl_" +:+ message_id in
    handle_clojure_repl w message_id params websocket s
    = mkRun [CreateTask (JStr key) p;
             Send websocket
               (response_of message_id
                  (JObj [("processId", JStr key); ("status", JStr "started")]))]
        (set_manager (set_buffers <[KStr key := []]>)
           (set_manager (set_running <[KStr key := p]>) s))
        (Ok tt).
Proof.
  intros w message_id params websocket path p s Ha Hp Hs key. subst key.
  unfold handle_clojure_repl. rewrite Ha, Hp.
  change (py_eq (JStr "start") (JStr "start")) with true. cbv iota.
  unfold handle_start_long_running_command, check_path, update_env, send_response,
    send_error.
  change (get _ "processId" _) with (JStr ("clj_repl_" +:+ message_id)).
  change (get _ "env" _) with (JObj []).
  cbn [update_error hash]. run_monad. rewrite Hs. run_monad. reflexivity.
Qed.

Lemma clojure_start_key_witness :
  handle_clojure_repl calm "9" [("processId", JStr "mine")] 7%nat initial
  = mkRun [CreateTask (JStr "clj_repl_9") (Proc 1);
           Send 7%nat
             (response_of "9"
                (JObj [("processId", JStr "clj_repl_9"); ("status", JStr "started")]))]
      (set_manager (set_buffers <[KStr "clj_repl_9" := []]>)
         (set_manager (set_running <[KStr "clj_repl_9" := Proc 1]>) initial))
      (Ok tt).
Proof.
  exact (clojure_start_key calm "9" [("processId", JStr "mine")] 7%nat "/srv" (Proc 1)
           initial eq_refl eq_refl eq_refl).
Defined.

(** X26: the stop action with a key that can be hashed does what
    killProcess does for that key; with a key that cannot be hashed, where
    killProcess raises, it answers 500 and changes nothing. *)
Theorem clojure_stop_is_kill :
  forall (w : World) (message_id : string) (params : dict json)
         (websocket : WebSocket) (s : Server),
    get params "action" (JStr "start") = JStr "stop" ->
    truthy (get params "processId" (JStr "")) = true ->
    let process_id := get params "processId" (JStr "") in
    handle_clojure_repl w message_id params websocket s
    = match hash process_id with
      | Some _ =>
          handle_kill_process w message_id [("processId", process_id)] websocket s
      | None =>
          mkRun [Send websocket (error_of message_id 500 (str_e w))] s (Ok tt)
      end.
Proof.
  intros w message_id params websocket s Ha Ht process_id.
  unfold handle_clojure_repl. rewrite Ha. fold process_id. fold process_id in Ht.
  change (py_eq (JStr "stop") (JStr "start")) with false.
  change (py_eq (JStr "stop") (JStr "eval")) with false.
  change (py_eq (JStr "stop") (JStr "stop")) with true.
  rewrite Ht. cbn [andb]. cbv iota.
  unfold handle_kill_process, kill_after_wait, send_response, send_error.
  change (get [("processId", process_id)] "processId" (JStr "")) with process_id.
  run_monad.
  destruct (hash process_id) as [k|]; run_monad; [|reflexivity].
  destruct (running_processes (manager s) !! k) as [process|]; run_monad;
    [|reflexivity].
  destruct (kill_wait w) as [[]| |]; run_monad; try reflexivity.
  destruct (bool_decide (is_Some (running_processes (manager s) !! k)));
    reflexivity.
Qed.

Lemma clojure_stop_is_kill_witness :
  handle_clojure_repl calm "1" [("action", JStr "stop"); ("processId", JArr [JInt 1])]
    7%nat initial
  = mkRun [Send 7%nat (error_of "1" 500 "error")] initial (Ok tt).
Proof.
  exact (clojure_stop_is_kill calm "1"
           [("action", JStr "stop"); ("processId", JArr [JInt 1])] 7%nat initial
           eq_refl eq_refl).
Defined.

(** X27: every executeReplCommand that goes through starts the
    interpreter anew: it writes the interpreter's start line to the
    session's shell, then the command, each followed by a line feed, and
    the history grows by what was read after the first write followed by
    what was read after the second. *)
Theorem repl_restarts_interpreter :
  forall (w : World) (message_id : string) (params : dict json)
         (websocket : WebSocket) (kind start k : string) (t : Session.t)
         (banner output : list string) (s : Server),
    truthy (get params "command" (JStr "")) = true ->
    get params "repl" (JStr "") = JStr kind ->
    kind <> "" ->
    repl_command (lower kind) = Some start ->
    get params "terminalId" (_current_terminal_id s) = JStr k ->
    k <> "" ->
    dict_get k (_active_terminals s) = Some t ->
    stdin_drain w = Returns tt ->
    read_lines (stream w) = Ok banner ->
    stdin_drain2 w = Returns tt ->
    read_lines (stream2 w) = Ok output ->
    let r := handle_execute_repl_command w message_id params websocket s in
    stdin_writes (log r)
    = [(Session.process t, encode (start +:+ LF));
       (Session.process t,
        encode (format w (get params "command" (JStr "")) +:+ LF))]
    /\ sent (log r)
       = [(websocket,
           response_of message_id
             (JObj [("repl", JStr kind);
                    ("command", get params "command" (JStr ""));
                    ("output", lines_json output);
                    ("lineCount", len_json output)]))]
    /\ history k (final r) = Some ((Session.output t ++ banner) ++ output).
Proof.
  intros w message_id params websocket kind start k t banner output s
    Hcmd Hr Hkind Hstart Hid Hk E Hd Hb Hd2 Ho r. subst r.
  unfold handle_execute_repl_command, _execute_terminal_command, contains, lookup,
    lower_of, extend_output, send_response, send_error.
  run_monad. rewrite Hcmd, Hr, Hid. rewrite (truthy_str _ Hkind). cbn [negb hash].
  rewrite (with_terminal_run _ _ _ _ _ _ _ Hk E).
  rewrite E. run_monad. rewrite Hstart. rewrite (truthy_str _ Hk).
  cbn [negb andb hash]. run_monad. rewrite E.
  rewrite bool_decide_eq_true_2 by eauto. cbn [negb]. run_monad.
  rewrite Hd. run_monad. rewrite Hb. run_monad. fields.
  rewrite ?E, ?dict_get_set_eq. run_monad.
  rewrite Hd2. run_monad. rewrite Ho. run_monad. fields.
  rewrite ?E, ?dict_get_set_eq. run_monad. cbn [log final res].
  split; [reflexivity|]. split; [reflexivity|].
  unfold history. fields. rewrite E, dict_get_set_eq, dict_get_set_eq.
  reflexivity.
Qed.

Lemma repl_restarts_interpreter_witness :
  stdin_writes
    (log (handle_execute_repl_command echo "1"
            [("command", JStr "1+1"); ("repl", JStr "Python")] 7%nat abc_server))
  = [(Proc 2, encode ("python3" +:+ LF)); (Proc 2, encode ("1+1" +:+ LF))].
Proof.
  exact (proj1 (repl_restarts_interpreter echo "1"
                  [("command", JStr "1+1"); ("repl", JStr "Python")] 7%nat
                  "Python" "python3" "7f3c" abc_session ["hi"] [] abc_server
                  eq_refl eq_refl ltac:(discriminate) eq_refl eq_refl
                  ltac:(discriminate) eq_refl eq_refl eq_refl eq_refl eq_refl)).
Defined.
